(** * Coffee-Shop: the authorization layer of [backend/src/auth/auth.py]

    A shallow embedding of the four functions of [auth.py]
    ([get_token_auth_header], [check_permissions], [verify_decode_jwt],
    [requires_auth]) and of the error handlers of [api.py], followed by
    the properties of the authorization gate.

    Conventions.
    - A Python [str] is a [string]: a sequence of characters, each one a
      code point below 256.  This is the range in which WSGI hands header
      values to the application; text with code points above 255 is
      outside the model.
    - Values produced by [json.loads] and the dict literals of the source
      are terms of [json].  A JSON object keeps its bindings in insertion
      order, one binding per key, as a Python [dict] does.  JSON numbers
      are integers; the source never computes with a number.
    - A Python call either returns or raises: [result].
    - [urlopen], [jose.jwt.get_unverified_header] and [jose.jwt.decode]
      are not code of this repository.  They are parameters: the answer
      of the network is a field of the environment [env], the two
      functions of python-jose are the fields of [jose]. *)

From Stdlib Require Import ZArith Ascii String List Bool.
From stdpp Require Import base option list strings gmap.

Local Open Scope Z_scope.
Local Open Scope string_scope.

(** ** Python values *)

Module Py.

#[warnings="-register-all"] Inductive json : Type :=
| JNull
| JBool (b : bool)
| JNum (n : Z)
| JStr (s : string)
| JArr (l : list json)
| JObj (kvs : list (string * json)).

(** The exception classes the source names ([AuthError],
    [jwt.ExpiredSignatureError], [jwt.JWTClaimsError]), those its own
    expressions raise ([IndexError], [KeyError], [TypeError]), and those
    of its collaborators.  In python-jose [ExpiredSignatureError] and
    [JWTClaimsError] are unrelated subclasses of [JWTError]; [URLError]
    is what [urlopen] raises on a transport failure.  [OtherException]
    stands for any further subclass of [Exception], [Interrupt] for a
    [BaseException] that is not an [Exception] ([KeyboardInterrupt],
    [SystemExit]). *)
Inductive exn : Type :=
| AuthError (error : json) (status_code : Z)
| IndexError
| KeyError (key : string)
| TypeError
| JWTError
| ExpiredSignatureError
| JWTClaimsError
| URLError (reason : string)
| OtherException (cls : string)
| Interrupt.

(** [isinstance(e, Exception)] *)
Definition is_Exception (e : exn) : bool :=
  match e with
  | Interrupt => false
  | _ => true
  end.

(** [isinstance(e, AuthError)] *)
Definition is_AuthError (e : exn) : bool :=
  match e with
  | AuthError _ _ => true
  | _ => false
  end.

Inductive result (A : Type) : Type :=
| Ok (a : A)
| Raise (e : exn).
Arguments Ok {A} a.
Arguments Raise {A} e.

#[global] Instance result_ret : MRet result := fun A a => Ok a.

#[global] Instance result_bind : MBind result := fun A B k r =>
  match r with
  | Ok a => k a
  | Raise e => Raise e
  end.

(** *** Strings *)

(** [c.isspace()] for a code point below 256: the ASCII white space
    09-0D, 1C-1F and 20, then NEL (85) and NBSP (A0). *)
Definition isspace (c : ascii) : bool :=
  let n := N_of_ascii c in
  ((9 <=? n) && (n <=? 13) || (28 <=? n) && (n <=? 32)
   || (n =? 133) || (n =? 160))%N.

(** [c.lower()] for a code point below 256: A-Z, and the upper-case
    letters C0-DE of Latin-1 without the multiplication sign D7. *)
Definition lower_char (c : ascii) : ascii :=
  let n := N_of_ascii c in
  (if (65 <=? n) && (n <=? 90)
      || (192 <=? n) && (n <=? 222) && negb (n =? 215)
   then ascii_of_N (n + 32)
   else c)%N.

(** [s.lower()] *)
Fixpoint lower (s : string) : string :=
  match s with
  | EmptyString => EmptyString
  | String c r => String (lower_char c) (lower r)
  end.

(** [s.split()] with no separator: the maximal runs of characters that
    are not white space, in order.  [word] is the run being read. *)
Fixpoint split_from (word : string) (s : string) : list string :=
  match s with
  | EmptyString => if String.eqb word "" then [] else [word]
  | String c r =>
      if isspace c then
        if String.eqb word "" then split_from "" r
        else word :: split_from "" r
      else split_from (word ++ String c "") r
  end.

Definition split (s : string) : list string := split_from "" s.

(** [needle in s] for two strings *)
Fixpoint is_substring (needle s : string) : bool :=
  String.prefix needle s
  || match s with
     | EmptyString => false
     | String _ r => is_substring needle r
     end.

(** *** Dynamic operations on values *)

(** [d.get(k)] on the bindings of a dict *)
Fixpoint assoc (k : string) (kvs : list (string * json)) : option json :=
  match kvs with
  | [] => None
  | (k', v) :: r => if String.eqb k k' then Some v else assoc k r
  end.

(** [a == b].  [bool] is a subclass of [int], so [True == 1]; two lists
    are equal elementwise; two dicts when they bind the same keys to
    equal values. *)
Fixpoint py_eq (a b : json) : bool :=
  match a, b with
  | JNull, JNull => true
  | JBool x, JBool y => Bool.eqb x y
  | JBool x, JNum n | JNum n, JBool x => (n =? (if x then 1 else 0))%Z
  | JNum m, JNum n => (m =? n)%Z
  | JStr s, JStr t => String.eqb s t
  | JArr l, JArr l' =>
      (fix go (l l' : list json) : bool :=
         match l, l' with
         | [], [] => true
         | x :: xs, y :: ys => py_eq x y && go xs ys
         | _, _ => false
         end) l l'
  | JObj kvs, JObj kvs' =>
      (length kvs =? length kvs')%nat
      && (fix go (kvs : list (string * json)) : bool :=
            match kvs with
            | [] => true
            | (k, v) :: r =>
                match assoc k kvs' with
                | Some v' => py_eq v v'
                | None => false
                end && go r
            end) kvs
  | _, _ => false
  end.

(** [v[k]] for a string [k]: the binding of a dict or [KeyError]; a
    string index on any other value is a [TypeError]. *)
Definition getitem (v : json) (k : string) : result json :=
  match v with
  | JObj kvs =>
      match assoc k kvs with
      | Some x => Ok x
      | None => Raise (KeyError k)
      end
  | _ => Raise TypeError
  end.

(** [k in v] for a string [k]: an element of a list, a key of a dict, a
    substring of a string; [TypeError] on a value that is not iterable. *)
Definition contains (v : json) (k : string) : result bool :=
  match v with
  | JArr l => Ok (existsb (py_eq (JStr k)) l)
  | JObj kvs => Ok (existsb (fun kv => String.eqb k (fst kv)) kvs)
  | JStr s => Ok (is_substring k s)
  | _ => Raise TypeError
  end.

(** The values a [for] loop draws from [v]: the elements of a list, the
    keys of a dict, the characters of a string. *)
Definition iter (v : json) : result (list json) :=
  match v with
  | JArr l => Ok l
  | JObj kvs => Ok (map (fun kv => JStr (fst kv)) kvs)
  | JStr s => Ok (map (fun c => JStr (String c "")) (list_ascii_of_string s))
  | _ => Raise TypeError
  end.

(** [bool(v)] *)
Definition truthy (v : json) : bool :=
  match v with
  | JNull => false
  | JBool b => b
  | JNum n => negb (n =? 0)%Z
  | JStr s => negb (String.eqb s "")
  | JArr l => negb (Nat.eqb (length l) 0)
  | JObj kvs => negb (Nat.eqb (length kvs) 0)
  end.

End Py.
Export Py.

(** ** The world around the gate *)

(** What one request sees: its headers ([request.headers]), what
    [json.loads(urlopen(url).read())] gives for a URL, and the time
    python-jose reads when it validates the claims of a token. *)
Record env : Type := {
  request_headers : gmap string string;
  urlopen_json : string -> result json;
  clock : Z
}.

(** The two functions of [jose.jwt] the source calls.  [decode] takes the
    time, then the arguments of
    [jwt.decode(token, key, algorithms, options, audience, issuer)]. *)
Record jose : Type := {
  get_unverified_header : string -> result json;
  decode : Z -> string -> json -> list string -> option json ->
           string -> string -> result json
}.

(** The calls that leave [auth.py], in the order they are made. *)
Inductive call : Type :=
| Curlopen (url : string)
| Cget_unverified_header (token : string)
| Cdecode (token : string) (key : json) (algorithms : list string)
          (options : option json) (audience issuer : string)
| Cview (payload : json).

(** The state a request runs in: the state of the application, which
    only the protected view function touches, and the calls made so
    far, oldest first. *)
Record world (S : Type) : Type := {
  app_state : S;
  calls : list call
}.
Arguments app_state {S} w.
Arguments calls {S} w.

(** A computation that returns or raises, and may change the world. *)
Definition M (S A : Type) : Type := world S -> result A * world S.

#[global] Instance M_ret {S} : MRet (M S) := fun A a w => (Ok a, w).

#[global] Instance M_bind {S} : MBind (M S) := fun A B k m w =>
  match m w with
  | (Ok a, w') => k a w'
  | (Raise e, w') => (Raise e, w')
  end.

Definition raise {S A} (e : exn) : M S A := fun w => (Raise e, w).

Definition lift {S A} (r : result A) : M S A := fun w => (r, w).

Definition record {S} (c : call) : M S unit := fun w =>
  (Ok tt, {| app_state := app_state w; calls := calls w ++ [c] |}).

(** [try: m  except BaseException as e: h e] *)
Definition try_except {S A} (m : M S A) (h : exn -> M S A) : M S A := fun w =>
  match m w with
  | (Ok a, w') => (Ok a, w')
  | (Raise e, w') => h e w'
  end.

(** Running a view function on the state of the application. *)
Definition run_view {S R} (f : S -> result R * S) : M S R := fun w =>
  let (r, s) := f (app_state w) in
  (r, {| app_state := s; calls := calls w |}).

(** ** [auth.py] *)

Definition AUTH0_DOMAIN : string := "starbucks-app.eu.auth0.com".
Definition ALGORITHMS : list string := ["RS256"].
Definition API_AUDIENCE : string := "coffee".

(** The dict [{'code': code, 'description': description}]. *)
Definition error_dict (code : Z) (description : string) : json :=
  JObj [("code", JNum code); ("description", JStr description)].

Definition dquote : string := String "034"%char "".

Definition MissingHeader : exn :=
  AuthError (error_dict 401 "Missing authorization header.") 401.
Definition MalformedScheme : exn :=
  AuthError (error_dict 401
    ("Authorization header must start with "
       ++ dquote ++ "Bearer" ++ dquote ++ ".")) 401.
Definition MalformedHeader : exn :=
  AuthError (error_dict 402 "Invalid form of autherization token") 401.
Definition PermissionsClaimMissing : exn :=
  AuthError (JStr "Permissions not included in JWT") 400.
Definition PermissionDenied : exn :=
  AuthError (error_dict 401 "Unautherized to use the service.") 401.
Definition MissingKeyId : exn :=
  AuthError (error_dict 401 "Missing argument.") 401.
Definition TokenExpired : exn :=
  AuthError (error_dict 401 "Token has expired.") 401.
Definition ClaimsInvalid : exn :=
  AuthError (error_dict 401
    "Incorrect claims. Please, check the audience and issuer.") 401.
Definition TokenUnparseable : exn :=
  AuthError (error_dict 400 "Unable to parse authentication token.") 400.
Definition NoTokenProvided : exn :=
  AuthError (error_dict 400 "No token was provided.") 400.

(** [get_token_auth_header()], lines 34-60. *)
Definition get_token_auth_header (e : env) : result string :=
  match request_headers e !! "Authorization" with
  | None => Raise MissingHeader
  | Some authorization_header =>
      let auth_header_components := split authorization_header in
      match auth_header_components with
      | [] => Raise IndexError
      | first :: _ =>
          if negb (String.eqb (lower first) "bearer") then
            Raise MalformedScheme
          else if negb (Nat.eqb (length auth_header_components) 2) then
            Raise MalformedHeader
          else
            match auth_header_components !! 1%nat with
            | Some token => Ok token
            | None => Raise IndexError
            end
      end
  end.

(** [check_permissions(permission, payload)], lines 73-84. *)
Definition check_permissions (permission : string) (payload : json)
  : result bool :=
  has_permissions ← contains payload "permissions";
  if negb has_permissions then Raise PermissionsClaimMissing
  else
    permissions ← getitem payload "permissions";
    granted ← contains permissions permission;
    if negb granted then Raise PermissionDenied
    else Ok true.

(** The dict built at lines 114-120 from a key of the key set. *)
Definition rsa_key_of (key : json) : result json :=
  kty ← getitem key "kty";
  kid ← getitem key "kid";
  use ← getitem key "use";
  n ← getitem key "n";
  e ← getitem key "e";
  Ok (JObj [("kty", kty); ("kid", kid); ("use", use); ("n", n); ("e", e)]).

(** The loop of lines 112-120; [RSA_key] is the value of the variable
    when the loop reaches [keys]. *)
Fixpoint match_keys (unverified_header : json) (keys : list json)
    (RSA_key : json) : result json :=
  match keys with
  | [] => Ok RSA_key
  | key :: rest =>
      kid ← getitem key "kid";
      wanted ← getitem unverified_header "kid";
      if py_eq kid wanted then
        RSA_key' ← rsa_key_of key;
        match_keys unverified_header rest RSA_key'
      else match_keys unverified_header rest RSA_key
  end.

Definition jwks_url : string :=
  "https://" ++ AUTH0_DOMAIN ++ "/.well-known/jwks.json".

Definition issuer : string := "https://" ++ AUTH0_DOMAIN ++ "/".

Section Gate.
Context {S R Args : Type}.
Variable lib : jose.

(** The [try] block of lines 123-153, entered with a key. *)
Definition decode_with (e : env) (token : string) (RSA_key : json)
  : M S json :=
  try_except
    (record (Cdecode token RSA_key ALGORITHMS None API_AUDIENCE issuer);;
     lift (decode lib (clock e) token RSA_key ALGORITHMS None
             API_AUDIENCE issuer))
    (fun error =>
       match error with
       | ExpiredSignatureError => raise TokenExpired
       | JWTClaimsError => raise ClaimsInvalid
       | _ =>
           if is_Exception error then raise TokenUnparseable
           else raise error
       end).

(** [verify_decode_jwt(token)], lines 98-159. *)
Definition verify_decode_jwt (e : env) (token : string) : M S json :=
  record (Curlopen jwks_url);;
  jwks ← lift (urlopen_json e jwks_url);
  record (Cget_unverified_header token);;
  unverified_header ← lift (get_unverified_header lib token);
  has_kid ← lift (contains unverified_header "kid");
  if negb has_kid then raise MissingKeyId
  else
    keys ← lift (getitem jwks "keys" ≫= iter);
    RSA_key ← lift (match_keys unverified_header keys (JObj []));
    if truthy RSA_key then decode_with e token RSA_key
    else raise NoTokenProvided.

(** [requires_auth(permission)(f)], lines 173-184: the wrapper that
    takes the place of the view function [f]. *)
Definition requires_auth (permission : string)
    (f : json -> Args -> S -> result R * S)
    (e : env) (args : Args) : M S R :=
  token ← lift (get_token_auth_header e);
  payload ← verify_decode_jwt e token;
  lift (check_permissions permission payload);;
  record (Cview payload);;
  run_view (f payload args).

End Gate.

(** ** [api.py]: what the client sees of a failure *)

(** [get_error_message(error, default_text)], lines 152-165. *)
Definition get_error_message (error : json) (default_text : string)
  : result json :=
  match getitem error "description" with
  | Raise TypeError => Ok (JStr default_text)
  | r => r
  end.

(** The handler registered for [AuthError], lines 180-186: the body and
    the status of the response. *)
Definition unautherized (error : json) (status_code : Z)
  : result (json * Z) :=
  message ← get_error_message error "Unautherized";
  Ok (JObj [("success", JBool false); ("error", JNum status_code);
            ("message", message)], status_code).

(** The status Flask answers with when a view raises: that of the
    handler registered for the class of the exception; 500 when no
    handler is registered for it, or when the handler raises. *)
Definition response_status (e : exn) : Z :=
  match e with
  | AuthError error status_code =>
      match unautherized error status_code with
      | Ok (_, status) => status
      | Raise _ => 500
      end
  | _ => 500
  end.

(** ** Vocabulary of the properties *)

(** The world after the calls [cs] were made in [w]. *)
Definition after {S} (w : world S) (cs : list call) : world S :=
  {| app_state := app_state w; calls := calls w ++ cs |}.

(** [key] is a dict whose [kid] equals [wanted]. *)
Definition key_matches (wanted key : json) : bool :=
  match getitem key "kid" with
  | Ok kid => py_eq kid wanted
  | Raise _ => false
  end.

(** [key] is a dict whose [kid] differs from [wanted]. *)
Definition key_differs (wanted key : json) : bool :=
  match getitem key "kid" with
  | Ok kid => negb (py_eq kid wanted)
  | Raise _ => false
  end.

(** [key] is a dict with the five fields [kty], [kid], [use], [n], [e]. *)
Definition is_key_entry (key : json) : bool :=
  match rsa_key_of key with
  | Ok _ => true
  | Raise _ => false
  end.

(** The key id of [token] is that of an entry of the key set fetched in
    [e], and [RSA_key] is built from the last such entry.  The entries
    before it have the five fields of a key. *)
Inductive selects (lib : jose) (e : env) (token : string) (RSA_key : json)
  : Prop :=
| selects_intro (jwks unverified_header wanted : json)
    (before : list json) (key : json) (later : list json) :
    urlopen_json e jwks_url = Ok jwks ->
    getitem jwks "keys" = Ok (JArr (before ++ key :: later)) ->
    get_unverified_header lib token = Ok unverified_header ->
    getitem unverified_header "kid" = Ok wanted ->
    Forall (fun k => is_key_entry k = true) before ->
    key_matches wanted key = true ->
    rsa_key_of key = Ok RSA_key ->
    Forall (fun k => key_differs wanted k = true) later ->
    selects lib e token RSA_key.

(** ** [api.py]: the handlers of HTTP errors *)

(** What a handler receives: a value, or the [HTTPException] raised by
    [abort(code)], an object with attributes and without items. *)
Inductive pyobject : Type :=
| Value (v : json)
| HTTPException (code : Z) (description : string).

(** [o[k]] for a string [k] *)
Definition subscript (o : pyobject) (k : string) : result json :=
  match o with
  | Value v => getitem v k
  | HTTPException _ _ => Raise TypeError
  end.

(** [get_error_message(error, default_text)], lines 152-165, on any
    object. *)
Definition get_error_message_of (error : pyobject) (default_text : string)
  : result json :=
  match subscript error "description" with
  | Raise TypeError => Ok (JStr default_text)
  | r => r
  end.

(** The dict [{"success": False, "error": code, "message": message}]. *)
Definition failure_body (code : Z) (message : json) : json :=
  JObj [("success", JBool false); ("error", JNum code);
        ("message", message)].

(** [bad_request(error)], lines 168-174. *)
Definition bad_request (error : pyobject) : result (json * Z) :=
  message ← get_error_message_of error "bad request";
  Ok (failure_body 400 message, 400).

(** [resource_not_found(error)], lines 190-196. *)
Definition resource_not_found (error : pyobject) : result (json * Z) :=
  message ← get_error_message_of error "resource not found";
  Ok (failure_body 404 message, 404).

(** [conflict(error)], lines 200-206. *)
Definition conflict (error : pyobject) : result (json * Z) :=
  message ← get_error_message_of error "Resourse already exists.";
  Ok (failure_body 409 message, 404).

(** [unprocessable(error)], lines 209-215. *)
Definition unprocessable (error : pyobject) : result (json * Z) :=
  message ← get_error_message_of error "unprocessable";
  Ok (failure_body 422 message, 422).

(** ** Vocabulary of the properties: strings *)

(** Every character of [s] is white space. *)
Definition is_blank (s : string) : bool :=
  forallb isspace (list_ascii_of_string s).

(** No character of [s] is white space. *)
Definition is_solid (s : string) : bool :=
  forallb (fun c => negb (isspace c)) (list_ascii_of_string s).

(** The ten [AuthError]s that [auth.py] raises. *)
Definition auth_failures : list exn :=
  [MissingHeader; MalformedScheme; MalformedHeader;
   MissingKeyId; TokenExpired; ClaimsInvalid; TokenUnparseable;
   NoTokenProvided; PermissionsClaimMissing; PermissionDenied].

(** ** Concrete requests, used to run the definitions *)

Module Demo.

Definition key_entry (kid n : string) : json :=
  JObj [("alg", JStr "RS256"); ("kty", JStr "RSA"); ("use", JStr "sig");
        ("n", JStr n); ("e", JStr "AQAB"); ("kid", JStr kid)].

(** A key set in which the key id [k2] occurs twice. *)
Definition jwks : json :=
  JObj [("keys", JArr [key_entry "k2" "modulus-old";
                       key_entry "k1" "modulus-one";
                       key_entry "k2" "modulus-new"])].

(** What lines 114-120 build from the last entry of [jwks]. *)
Definition rsa_new : json :=
  JObj [("kty", JStr "RSA"); ("kid", JStr "k2"); ("use", JStr "sig");
        ("n", JStr "modulus-new"); ("e", JStr "AQAB")].

Definition claims : json :=
  JObj [("iss", JStr issuer); ("aud", JStr API_AUDIENCE);
        ("exp", JNum 1000);
        ("permissions", JArr [JStr "get:drinks-detail"])].

Definition header_of (alg kid : string) : json :=
  JObj [("alg", JStr alg); ("typ", JStr "JWT"); ("kid", JStr kid)].

Definition alg_of (token : string) : string :=
  if String.eqb token "hs256-token" then "HS256" else "RS256".

(** A stand-in for python-jose.  Every token but [garbage] has a header;
    [k9-token] names the key [k9], the others the key [k2]; the token
    [hs256-token] is signed with HS256, the others with RS256.  A
    signature verifies with the key of modulus [modulus-new] only; the
    claims expire at time 1000 and are meant for the audience
    [coffee]. *)
Definition lib : jose := {|
  get_unverified_header token :=
    if String.eqb token "garbage" then Raise JWTError
    else if String.eqb token "k9-token" then Ok (header_of "RS256" "k9")
    else Ok (header_of (alg_of token) "k2");
  decode now token key algorithms options audience issuer :=
    if String.eqb token "garbage" then Raise JWTError
    else if negb (existsb (String.eqb (alg_of token)) algorithms)
    then Raise JWTError
    else
      match getitem key "n" with
      | Ok (JStr "modulus-new") =>
          if (1000 <? now)%Z then Raise ExpiredSignatureError
          else if String.eqb audience "coffee" then Ok claims
          else Raise JWTClaimsError
      | _ => Raise JWTError
      end
|}.

Definition request (headers : list (string * string))
    (fetch : result json) (now : Z) : env := {|
  request_headers := list_to_map headers;
  urlopen_json := fun _ => fetch;
  clock := now
|}.

Definition bearer (token : string) : list (string * string) :=
  [("Authorization", "Bearer " ++ token)].

(** A view function that counts how often it ran. *)
Definition view (payload : json) (args : unit) (s : nat)
  : result json * nat :=
  (Ok (JObj [("success", JBool true)]), Datatypes.S s).

Definition w0 : world nat := {| app_state := 0%nat; calls := [] |}.

(** A blank, a tabulation and a blank. *)
Definition blanks : string := " " ++ String "009"%char " ".

End Demo.

(** More requests: tokens and key sets that [Demo] does not have. *)
Module Demo2.

(** As [Demo.lib], with two more tokens: the header of [nokid-token]
    has no key id, and the claims of [alien-token] are meant for
    another audience. *)
Definition lib : jose := {|
  get_unverified_header token :=
    if String.eqb token "nokid-token"
    then Ok (JObj [("alg", JStr "RS256"); ("typ", JStr "JWT")])
    else get_unverified_header Demo.lib token;
  decode now token key algorithms options audience issuer :=
    if String.eqb token "alien-token" then Raise JWTClaimsError
    else decode Demo.lib now token key algorithms options audience issuer
|}.

(** A key set whose second entry has no [kid]. *)
Definition jwks_without_kid : json :=
  JObj [("keys", JArr [Demo.key_entry "k2" "modulus-new";
                       JObj [("kty", JStr "RSA"); ("n", JStr "modulus")];
                       Demo.key_entry "k1" "modulus-one"])].

(** The entry [k2] of the key set below: it has neither [use] nor
    [e], and lists [n] first. *)
Definition partial_key : json :=
  JObj [("n", JStr "modulus-new"); ("kid", JStr "k2");
        ("kty", JStr "RSA")].

Definition jwks_partial : json :=
  JObj [("keys", JArr [Demo.key_entry "k1" "modulus-one"; partial_key])].

End Demo2.

(** Unfolds the operations of [M] and of [result]. *)
Ltac run :=
  unfold mbind, mret, M_bind, M_ret, result_bind, result_ret,
    lift, raise, record, try_except, run_view; simpl.

(** ** Running the definitions *)

Example split_bearer : split ("  Bearer" ++ Demo.blanks ++ "abc  ") = ["Bearer"; "abc"].
Proof. reflexivity. Qed.

Example lower_bearer : lower "BeArEr" = "bearer".
Proof. reflexivity. Qed.

(** A valid token with the required permission: the view function runs
    once, with the claims, after the three calls of the verifier. *)
Example gate_accepts :
  requires_auth Demo.lib "get:drinks-detail" Demo.view
    (Demo.request (Demo.bearer "k2-token") (Ok Demo.jwks) 999) tt Demo.w0
  = (Ok (JObj [("success", JBool true)]),
     {| app_state := 1%nat;
        calls := [Curlopen jwks_url; Cget_unverified_header "k2-token";
                  Cdecode "k2-token" Demo.rsa_new ["RS256"] None
                    "coffee" issuer;
                  Cview Demo.claims] |}).
Proof. vm_compute. reflexivity. Qed.

(** The same token without the required permission. *)
Example gate_refuses :
  requires_auth Demo.lib "post:drinks" Demo.view
    (Demo.request (Demo.bearer "k2-token") (Ok Demo.jwks) 999) tt Demo.w0
  = (Raise PermissionDenied,
     after Demo.w0
       [Curlopen jwks_url; Cget_unverified_header "k2-token";
        Cdecode "k2-token" Demo.rsa_new ["RS256"] None "coffee" issuer]).
Proof. vm_compute. reflexivity. Qed.

(** A scheme other than [Bearer]. *)
Example gate_wrong_scheme :
  get_token_auth_header
    (Demo.request [("Authorization", "Token abc123")] (Ok Demo.jwks) 0)
  = Raise MalformedScheme
  /\ response_status MalformedScheme = 401.
Proof. split; vm_compute; reflexivity. Qed.

(** A token whose header cannot be read: the error of python-jose
    leaves the verifier as it is. *)
Example verifier_garbage :
  fst (verify_decode_jwt Demo.lib
         (Demo.request (Demo.bearer "garbage") (Ok Demo.jwks) 0)
         "garbage" Demo.w0)
  = Raise JWTError.
Proof. vm_compute. reflexivity. Qed.

(** ** Strings and values: basic facts *)

Lemma split_from_blank (s : string) :
  forallb isspace (list_ascii_of_string s) = true ->
  split_from "" s = [].
Proof.
  induction s as [|c r IH]; simpl; [reflexivity|].
  intros [Hc Hr]%andb_prop. rewrite Hc. auto.
Qed.

Lemma py_eq_str (s : string) (v : json) :
  py_eq (JStr s) v = true <-> v = JStr s.
Proof.
  destruct v; simpl; try (split; [discriminate | congruence]).
  rewrite String.eqb_eq. split; congruence.
Qed.

Lemma existsb_py_eq_str (s : string) (l : list json) :
  existsb (py_eq (JStr s)) l = true <-> JStr s ∈ l.
Proof.
  rewrite existsb_exists, list_elem_of_In. split.
  - intros (v & Hin & Heq). apply py_eq_str in Heq. congruence.
  - intros Hin. exists (JStr s). split; [assumption | by apply py_eq_str].
Qed.

Lemma assoc_existsb (k : string) (kvs : list (string * json)) :
  existsb (fun kv => String.eqb k (fst kv)) kvs
  = match assoc k kvs with Some _ => true | None => false end.
Proof.
  induction kvs as [|[k' v] r IH]; simpl; [reflexivity|].
  destruct (String.eqb k k'); simpl; auto.
Qed.

(** A value with a binding for [k] is a dict that has the key [k]. *)
Lemma getitem_contains (v x : json) (k : string) :
  getitem v k = Ok x -> contains v k = Ok true.
Proof.
  destruct v; simpl; try discriminate.
  rewrite assoc_existsb. destruct (assoc k kvs); [reflexivity | discriminate].
Qed.

Lemma after_after {S} (w : world S) (cs cs' : list call) :
  after (after w cs) cs' = after w (cs ++ cs').
Proof. unfold after. simpl. by rewrite <- List.app_assoc. Qed.

(** ** The token extractor *)

(** What [get_token_auth_header] does with a header value that has at
    least one component. *)
Lemma get_token_auth_header_components (e : env) (v first : string)
    (rest : list string) :
  request_headers e !! "Authorization" = Some v ->
  split v = first :: rest ->
  get_token_auth_header e =
    if negb (String.eqb (lower first) "bearer") then Raise MalformedScheme
    else match rest with
         | [token] => Ok token
         | _ => Raise MalformedHeader
         end.
Proof.
  intros Hv Hs. unfold get_token_auth_header. rewrite Hv, Hs.
  destruct (negb (String.eqb (lower first) "bearer")); [reflexivity|].
  destruct rest as [|token [|? ?]]; reflexivity.
Qed.

(** C4, at the empty header value: [get_token_auth_header] is meant to
    answer every present header value with [MalformedScheme], with
    [MalformedHeader] or with the second component.  The split of the
    empty value has no component, and indexing it raises [IndexError],
    which is none of the three and is answered with status 500. *)
Theorem get_token_auth_header_empty_value :
  split "" = []
  /\ get_token_auth_header
       (Demo.request [("Authorization", "")] (Ok Demo.jwks) 0)
     = Raise IndexError
  /\ IndexError <> MalformedScheme
  /\ IndexError <> MalformedHeader
  /\ response_status IndexError = 500.
Proof.
  split; [reflexivity|]. split; [vm_compute; reflexivity|].
  repeat split; discriminate.
Qed.

(** C9: when the [Authorization] header is present and its value is
    empty or made of white space only, the split has no component and
    [get_token_auth_header] raises [IndexError]: it neither returns a
    token nor raises an [AuthError]. *)
Theorem get_token_auth_header_blank_IndexError (e : env) (v : string) :
  request_headers e !! "Authorization" = Some v ->
  forallb isspace (list_ascii_of_string v) = true ->
  split v = []
  /\ get_token_auth_header e = Raise IndexError
  /\ (forall token, get_token_auth_header e <> Ok token)
  /\ (forall error status_code,
        get_token_auth_header e <> Raise (AuthError error status_code)).
Proof.
  intros Hv Hblank.
  assert (Hs : split v = []) by (by apply split_from_blank).
  assert (H : get_token_auth_header e = Raise IndexError).
  { unfold get_token_auth_header. by rewrite Hv, Hs. }
  rewrite H. repeat split; [assumption | discriminate..].
Qed.

Lemma get_token_auth_header_blank_IndexError_witness :
  split Demo.blanks = []
  /\ get_token_auth_header
       (Demo.request [("Authorization", Demo.blanks)] (Ok Demo.jwks) 0)
     = Raise IndexError.
Proof.
  pose proof (get_token_auth_header_blank_IndexError
                (Demo.request [("Authorization", Demo.blanks)] (Ok Demo.jwks) 0)
                Demo.blanks eq_refl eq_refl) as (Hsplit & Hraise & _).
  exact (conj Hsplit Hraise).
Defined.

(** ** The permission enforcer *)

(** C2: on a claims mapping without a [permissions] field
    [check_permissions] raises [PermissionsClaimMissing], answered with
    status 400; when the field holds a sequence that lacks the required
    string it raises [PermissionDenied], answered with status 401; when
    the sequence has the required string it returns [True]. *)
Theorem check_permissions_cases (permission : string)
    (claims : list (string * json)) :
  (assoc "permissions" claims = None ->
     check_permissions permission (JObj claims)
     = Raise PermissionsClaimMissing)
  /\ (forall permissions : list json,
        assoc "permissions" claims = Some (JArr permissions) ->
        JStr permission ∉ permissions ->
        check_permissions permission (JObj claims) = Raise PermissionDenied)
  /\ (forall permissions : list json,
        assoc "permissions" claims = Some (JArr permissions) ->
        JStr permission ∈ permissions ->
        check_permissions permission (JObj claims) = Ok true)
  /\ PermissionsClaimMissing
     = AuthError (JStr "Permissions not included in JWT") 400
  /\ response_status PermissionsClaimMissing = 400
  /\ PermissionDenied
     = AuthError (error_dict 401 "Unautherized to use the service.") 401
  /\ response_status PermissionDenied = 401.
Proof.
  unfold check_permissions. cbn [contains getitem].
  rewrite assoc_existsb.
  repeat split.
  - intros ->. reflexivity.
  - intros ps -> Hnot. cbn -[py_eq existsb].
    destruct (existsb (py_eq (JStr permission)) ps) eqn:E; [|reflexivity].
    apply existsb_py_eq_str in E. contradiction.
  - intros ps -> Hin. cbn -[py_eq existsb].
    apply existsb_py_eq_str in Hin. by rewrite Hin.
Qed.

Lemma check_permissions_cases_witness :
  check_permissions "post:drinks" (JObj [("exp", JNum 1000)])
    = Raise PermissionsClaimMissing
  /\ check_permissions "post:drinks" Demo.claims = Raise PermissionDenied
  /\ check_permissions "get:drinks-detail" Demo.claims = Ok true.
Proof.
  pose proof (check_permissions_cases "post:drinks" [("exp", JNum 1000)])
    as (Hmissing & _).
  pose proof (check_permissions_cases "post:drinks"
                [("iss", JStr issuer); ("aud", JStr API_AUDIENCE);
                 ("exp", JNum 1000);
                 ("permissions", JArr [JStr "get:drinks-detail"])])
    as (_ & Hdenied & _).
  pose proof (check_permissions_cases "get:drinks-detail"
                [("iss", JStr issuer); ("aud", JStr API_AUDIENCE);
                 ("exp", JNum 1000);
                 ("permissions", JArr [JStr "get:drinks-detail"])])
    as (_ & _ & Hgranted & _).
  split; [exact (Hmissing eq_refl)|].
  split.
  - apply (Hdenied [JStr "get:drinks-detail"] eq_refl).
    intros Hin. apply list_elem_of_In in Hin. simpl in Hin.
    destruct Hin as [Heq | []]. discriminate Heq.
  - apply (Hgranted [JStr "get:drinks-detail"] eq_refl).
    apply list_elem_of_In. left. reflexivity.
Defined.

(** ** Matching the key id *)

Lemma is_key_entry_kid (key : json) :
  is_key_entry key = true ->
  exists kid RSA_key,
    getitem key "kid" = Ok kid /\ rsa_key_of key = Ok RSA_key.
Proof.
  unfold is_key_entry. destruct (rsa_key_of key) as [r|] eqn:E; [|discriminate].
  intros _. revert E. unfold rsa_key_of.
  destruct (getitem key "kty"); [|discriminate].
  destruct (getitem key "kid") as [kid|]; [|discriminate].
  intros _. eauto.
Qed.

Lemma rsa_key_of_truthy (key RSA_key : json) :
  rsa_key_of key = Ok RSA_key -> truthy RSA_key = true.
Proof.
  unfold rsa_key_of.
  destruct (getitem key "kty"); [|discriminate].
  destruct (getitem key "kid"); [|discriminate].
  destruct (getitem key "use"); [|discriminate].
  destruct (getitem key "n"); [|discriminate].
  destruct (getitem key "e"); [|discriminate].
  cbn. intros [= <-]. reflexivity.
Qed.

(** Entries with another key id leave [RSA_key] as it is. *)
Lemma match_keys_differs (unverified_header wanted : json)
    (keys : list json) (RSA_key : json) :
  getitem unverified_header "kid" = Ok wanted ->
  Forall (fun k => key_differs wanted k = true) keys ->
  match_keys unverified_header keys RSA_key = Ok RSA_key.
Proof.
  intros Hw Hall. induction Hall as [|key rest Hk _ IH]; [reflexivity|].
  cbn [match_keys]. unfold key_differs in Hk.
  destruct (getitem key "kid") as [kid|]; [|discriminate].
  rewrite Hw. cbn [mbind result_bind].
  destruct (py_eq kid wanted); [discriminate | exact IH].
Qed.

(** The loop ends with the dict built from the last matching entry. *)
Lemma match_keys_last (unverified_header wanted : json)
    (before : list json) (key : json) (later : list json)
    (RSA_key0 RSA_key : json) :
  getitem unverified_header "kid" = Ok wanted ->
  Forall (fun k => is_key_entry k = true) before ->
  key_matches wanted key = true ->
  rsa_key_of key = Ok RSA_key ->
  Forall (fun k => key_differs wanted k = true) later ->
  match_keys unverified_header (before ++ key :: later) RSA_key0
  = Ok RSA_key.
Proof.
  intros Hw Hbefore Hkey Hrsa Hlater. revert RSA_key0.
  induction Hbefore as [|k rest Hk _ IH]; intros RSA_key0.
  - cbn [List.app match_keys]. unfold key_matches in Hkey.
    destruct (getitem key "kid") as [kid|]; [|discriminate].
    rewrite Hw. cbn [mbind result_bind]. rewrite Hkey, Hrsa.
    cbn [mbind result_bind]. by eapply match_keys_differs.
  - cbn [List.app match_keys].
    destruct (is_key_entry_kid k Hk) as (kid & r & -> & ->).
    rewrite Hw. cbn [mbind result_bind].
    destruct (py_eq kid wanted); apply IH.
Qed.

(** In the key set of [Demo] the tokens that name [k2] select the last
    entry. *)
Lemma demo_selects (headers : list (string * string)) (now : Z)
    (token : string) :
  get_unverified_header Demo.lib token = Ok (Demo.header_of "RS256" "k2")
  \/ get_unverified_header Demo.lib token
     = Ok (Demo.header_of "HS256" "k2") ->
  selects Demo.lib (Demo.request headers (Ok Demo.jwks) now) token
    Demo.rsa_new.
Proof.
  intros Hhdr.
  assert (Hsel : forall alg,
    get_unverified_header Demo.lib token = Ok (Demo.header_of alg "k2") ->
    selects Demo.lib (Demo.request headers (Ok Demo.jwks) now) token
      Demo.rsa_new).
  { intros alg H.
    apply (selects_intro Demo.lib _ token Demo.rsa_new
             Demo.jwks (Demo.header_of alg "k2") (JStr "k2")
             [Demo.key_entry "k2" "modulus-old";
              Demo.key_entry "k1" "modulus-one"]
             (Demo.key_entry "k2" "modulus-new") []);
      try reflexivity; try assumption.
    - repeat constructor.
    - constructor. }
  destruct Hhdr as [H | H]; eapply Hsel; exact H.
Defined.

(** ** The verifier *)

Section VerifierFacts.
Context {S : Type}.
Variable lib : jose.
Implicit Types (e : env) (w : world S) (token : string).

(** The [try] block records the call of [jwt.decode] and translates
    what it raises. *)
Lemma decode_with_run e token (RSA_key : json) w :
  decode_with lib e token RSA_key w =
    (match decode lib (clock e) token RSA_key ALGORITHMS None
             API_AUDIENCE issuer with
     | Ok payload => Ok payload
     | Raise ExpiredSignatureError => Raise TokenExpired
     | Raise JWTClaimsError => Raise ClaimsInvalid
     | Raise error =>
         if is_Exception error then Raise TokenUnparseable
         else Raise error
     end,
     after w [Cdecode token RSA_key ALGORITHMS None API_AUDIENCE issuer]).
Proof.
  unfold decode_with. run.
  destruct (decode lib (clock e) token RSA_key ALGORITHMS None
              API_AUDIENCE issuer) as [payload|[]]; reflexivity.
Qed.

(** With a matching key the verifier reaches the [try] block after two
    calls: the fetch of the key set and the reading of the header of
    the token. *)
Lemma verify_decode_jwt_selects e token (RSA_key : json) w :
  selects lib e token RSA_key ->
  verify_decode_jwt lib e token w
  = decode_with lib e token RSA_key
      (after w [Curlopen jwks_url; Cget_unverified_header token]).
Proof.
  intros [jwks hdr wanted before key later Hfetch Hkeys Hhdr Hkid
            Hbefore Hkey Hrsa Hlater].
  unfold verify_decode_jwt. run. rewrite Hfetch, Hhdr.
  rewrite (getitem_contains _ _ _ Hkid). cbn [negb]. rewrite Hkeys.
  cbn [iter].
  rewrite (match_keys_last hdr wanted before key later (JObj []) RSA_key)
    by assumption.
  rewrite (rsa_key_of_truthy _ _ Hrsa).
  unfold after. cbn. by rewrite <- List.app_assoc.
Qed.

(** The outcome of the verifier is a function of the token, of the
    fetched key set and of the clock. *)
Lemma verify_decode_jwt_outcome e1 e2 token (w1 w2 : world S) :
  urlopen_json e1 jwks_url = urlopen_json e2 jwks_url ->
  clock e1 = clock e2 ->
  fst (verify_decode_jwt lib e1 token w1)
  = fst (verify_decode_jwt lib e2 token w2).
Proof.
  intros Hfetch Hclock. unfold verify_decode_jwt, decode_with. run.
  rewrite Hfetch, Hclock.
  repeat case_match; simplify_eq/=; reflexivity.
Qed.

(** The verifier leaves the state of the application alone. *)
Lemma verify_decode_jwt_app_state e token w :
  app_state (snd (verify_decode_jwt lib e token w)) = app_state w.
Proof.
  unfold verify_decode_jwt, decode_with. run.
  repeat case_match; simplify_eq/=; reflexivity.
Qed.

End VerifierFacts.
Section VerifierClaims.
Context {S : Type}.
Variable lib : jose.
Implicit Types (e : env) (w : world S) (token : string).

(** C3: when the key id of the token matches a key of the key set and
    [jwt.decode], called with the algorithms [["RS256"]], raises an
    error other than [ExpiredSignatureError] and [JWTClaimsError] (as
    python-jose does on a malformed token, a bad signature or another
    algorithm), the verifier raises [TokenUnparseable], which carries
    and is answered with status 400. *)
Theorem verify_decode_jwt_unparseable e token (RSA_key : json)
    (error : exn) w :
  selects lib e token RSA_key ->
  decode lib (clock e) token RSA_key ["RS256"] None API_AUDIENCE issuer
    = Raise error ->
  is_Exception error = true ->
  error <> ExpiredSignatureError ->
  error <> JWTClaimsError ->
  fst (verify_decode_jwt lib e token w) = Raise TokenUnparseable
  /\ TokenUnparseable
     = AuthError
         (error_dict 400 "Unable to parse authentication token.") 400
  /\ response_status TokenUnparseable = 400.
Proof.
  intros Hsel Hdec Hexc Hexp Hclaims. repeat split.
  rewrite (verify_decode_jwt_selects lib e token RSA_key w Hsel).
  rewrite decode_with_run. change ALGORITHMS with ["RS256"].
  rewrite Hdec. cbn [fst].
  destruct error; try reflexivity; try discriminate; contradiction.
Qed.

(** C5: when the header of the token has a key id and every entry of
    the fetched key set has another one, the verifier raises
    [NoTokenProvided], which carries and is answered with status 400,
    after two calls, the fetch and the reading of the header:
    [jwt.decode] is not called. *)
Theorem verify_decode_jwt_unknown_kid e token
    (jwks unverified_header wanted : json) (keys : list json) w :
  urlopen_json e jwks_url = Ok jwks ->
  getitem jwks "keys" = Ok (JArr keys) ->
  get_unverified_header lib token = Ok unverified_header ->
  getitem unverified_header "kid" = Ok wanted ->
  Forall (fun k => key_differs wanted k = true) keys ->
  verify_decode_jwt lib e token w
  = (Raise NoTokenProvided,
     after w [Curlopen jwks_url; Cget_unverified_header token])
  /\ NoTokenProvided
     = AuthError (error_dict 400 "No token was provided.") 400
  /\ response_status NoTokenProvided = 400.
Proof.
  intros Hfetch Hkeys Hhdr Hkid Hdiffers. repeat split.
  unfold verify_decode_jwt. run. rewrite Hfetch, Hhdr.
  rewrite (getitem_contains _ _ _ Hkid). cbn [negb]. rewrite Hkeys.
  cbn [iter].
  rewrite (match_keys_differs unverified_header wanted keys (JObj []))
    by assumption.
  unfold after. cbn. by rewrite <- List.app_assoc.
Qed.

(** C6: when the key id of the token matches a key of the key set and
    [jwt.decode], which is called without options and so without any
    leeway, reports at the time of the verifier that the token has
    expired, the verifier raises [TokenExpired], which carries and is
    answered with status 401. *)
Theorem verify_decode_jwt_expired e token (RSA_key : json) w :
  selects lib e token RSA_key ->
  decode lib (clock e) token RSA_key ["RS256"] None API_AUDIENCE issuer
    = Raise ExpiredSignatureError ->
  verify_decode_jwt lib e token w
  = (Raise TokenExpired,
     after w [Curlopen jwks_url; Cget_unverified_header token;
              Cdecode token RSA_key ["RS256"] None API_AUDIENCE issuer])
  /\ TokenExpired = AuthError (error_dict 401 "Token has expired.") 401
  /\ response_status TokenExpired = 401.
Proof.
  intros Hsel Hdec. repeat split.
  rewrite (verify_decode_jwt_selects lib e token RSA_key w Hsel).
  rewrite decode_with_run. change ALGORITHMS with ["RS256"].
  rewrite Hdec, after_after. reflexivity.
Qed.


End VerifierClaims.

Section GateClaims.
Context {S R Args : Type}.
Variable lib : jose.
Implicit Types (e : env) (w : world S) (token permission : string).
Implicit Types (f : json -> Args -> S -> result R * S).

(** C7, as the code has it: when the header yields a token and the
    fetch of the key set raises an error that is not an [AuthError],
    the wrapper raises that very error after the one call of
    [urlopen]; the view function does not run, and no handler being
    registered for the error the response has status 500. *)
Theorem requires_auth_fetch_error permission f e (args : Args) token
    (error : exn) w :
  get_token_auth_header e = Ok token ->
  urlopen_json e jwks_url = Raise error ->
  is_AuthError error = false ->
  requires_auth lib permission f e args w
  = (Raise error, after w [Curlopen jwks_url])
  /\ response_status error = 500.
Proof.
  intros Htoken Hfetch Hnot. split.
  - unfold requires_auth, verify_decode_jwt. rewrite Htoken. run.
    rewrite Hfetch. reflexivity.
  - destruct error; try reflexivity; discriminate.
Qed.

End GateClaims.

Section GateMissingHeader.
Context {S R Args : Type}.
Variable lib : jose.
Implicit Types (e : env) (w : world S) (permission : string).
Implicit Types (f : json -> Args -> S -> result R * S).

(** C1: when the request has no [Authorization] header, the wrapper
    built by [requires_auth] raises [MissingHeader], which carries and
    is answered with status 401, and leaves the world as it found it:
    no call was made and the view function, whatever it is, did not
    touch the state of the application. *)
Theorem requires_auth_missing_header permission f e (args : Args) w :
  request_headers e !! "Authorization" = None ->
  requires_auth lib permission f e args w = (Raise MissingHeader, w)
  /\ MissingHeader
     = AuthError (error_dict 401 "Missing authorization header.") 401
  /\ response_status MissingHeader = 401.
Proof.
  intros Hnone. repeat split.
  unfold requires_auth, get_token_auth_header. rewrite Hnone. reflexivity.
Qed.

End GateMissingHeader.

(** ** The properties at the requests of [Demo] *)

Lemma requires_auth_missing_header_witness :
  requires_auth Demo.lib "post:drinks" Demo.view
    (Demo.request [("Accept", "*/*")] (Ok Demo.jwks) 0) tt Demo.w0
  = (Raise MissingHeader, Demo.w0).
Proof.
  exact (proj1 (requires_auth_missing_header Demo.lib "post:drinks" Demo.view
                  (Demo.request [("Accept", "*/*")] (Ok Demo.jwks) 0) tt
                  Demo.w0 eq_refl)).
Defined.

(** A token signed with HS256. *)
Lemma verify_decode_jwt_unparseable_witness :
  fst (verify_decode_jwt Demo.lib
         (Demo.request (Demo.bearer "hs256-token") (Ok Demo.jwks) 0)
         "hs256-token" Demo.w0)
  = Raise TokenUnparseable.
Proof.
  refine (proj1 (verify_decode_jwt_unparseable Demo.lib
                   (Demo.request (Demo.bearer "hs256-token")
                      (Ok Demo.jwks) 0)
                   "hs256-token" Demo.rsa_new JWTError Demo.w0
                   (demo_selects _ 0 "hs256-token" (or_intror eq_refl))
                   eq_refl eq_refl _ _)); discriminate.
Defined.

Lemma verify_decode_jwt_unknown_kid_witness :
  verify_decode_jwt Demo.lib
    (Demo.request (Demo.bearer "k9-token") (Ok Demo.jwks) 0)
    "k9-token" Demo.w0
  = (Raise NoTokenProvided,
     after Demo.w0 [Curlopen jwks_url; Cget_unverified_header "k9-token"]).
Proof.
  refine (proj1 (verify_decode_jwt_unknown_kid Demo.lib
                   (Demo.request (Demo.bearer "k9-token") (Ok Demo.jwks) 0)
                   "k9-token" Demo.jwks (Demo.header_of "RS256" "k9")
                   (JStr "k9")
                   [Demo.key_entry "k2" "modulus-old";
                    Demo.key_entry "k1" "modulus-one";
                    Demo.key_entry "k2" "modulus-new"]
                   Demo.w0 eq_refl eq_refl eq_refl eq_refl _)).
  repeat constructor.
Defined.

(** The token expires at 1000 and is verified at 1001. *)
Lemma verify_decode_jwt_expired_witness :
  verify_decode_jwt Demo.lib
    (Demo.request (Demo.bearer "k2-token") (Ok Demo.jwks) 1001)
    "k2-token" Demo.w0
  = (Raise TokenExpired,
     after Demo.w0
       [Curlopen jwks_url; Cget_unverified_header "k2-token";
        Cdecode "k2-token" Demo.rsa_new ["RS256"] None API_AUDIENCE issuer]).
Proof.
  exact (proj1 (verify_decode_jwt_expired Demo.lib
                  (Demo.request (Demo.bearer "k2-token") (Ok Demo.jwks) 1001)
                  "k2-token" Demo.rsa_new Demo.w0
                  (demo_selects _ 1001 "k2-token" (or_introl eq_refl))
                  eq_refl)).
Defined.


(** The fetch of the key set times out. *)
Lemma requires_auth_fetch_error_witness :
  requires_auth Demo.lib "post:drinks" Demo.view
    (Demo.request (Demo.bearer "k2-token") (Raise (URLError "timed out")) 0)
    tt Demo.w0
  = (Raise (URLError "timed out"), after Demo.w0 [Curlopen jwks_url])
  /\ response_status (URLError "timed out") = 500.
Proof.
  exact (requires_auth_fetch_error Demo.lib "post:drinks" Demo.view
           (Demo.request (Demo.bearer "k2-token")
              (Raise (URLError "timed out")) 0)
           tt "k2-token" (URLError "timed out") Demo.w0
           eq_refl eq_refl eq_refl).
Defined.

(** C7, as it is stated, fails: when the fetch of the key set times out
    the gate does not fail with a structured failure, an [AuthError]
    that carries a status of the class 5xx.  What leaves the gate is the
    [URLError] of [urlopen], which is no [AuthError] and has no status. *)
Lemma requires_auth_fetch_error_not_structured :
  ~ exists (error : json) (status_code : Z),
      fst (requires_auth Demo.lib "post:drinks" Demo.view
             (Demo.request (Demo.bearer "k2-token")
                (Raise (URLError "timed out")) 0)
             tt Demo.w0)
      = Raise (AuthError error status_code)
      /\ 500 <= status_code < 600.
Proof.
  intros (error & status_code & Hraise & _).
  vm_compute in Hraise. discriminate Hraise.
Qed.

(** ** More on [split] *)

Lemma append_cons (c : ascii) (r t : string) :
  String c r ++ t = String c (r ++ t).
Proof. reflexivity. Qed.

Lemma append_empty_l (t : string) : "" ++ t = t.
Proof. reflexivity. Qed.

Lemma append_empty_r (s : string) : s ++ "" = s.
Proof.
  induction s as [|c r IH]; [reflexivity|]. by rewrite append_cons, IH.
Qed.

Lemma append_assoc (s t u : string) : (s ++ t) ++ u = s ++ t ++ u.
Proof.
  induction s as [|c r IH]; [reflexivity|]. by rewrite !append_cons, IH.
Qed.

Lemma is_solid_app (s t : string) :
  is_solid (s ++ t) = is_solid s && is_solid t.
Proof.
  unfold is_solid. induction s as [|c r IH]; [reflexivity|].
  rewrite append_cons. simpl. by rewrite IH, andb_assoc.
Qed.

(** A word read to the end of the string. *)
Lemma split_from_solid (word s : string) :
  is_solid s = true ->
  split_from word s = if String.eqb (word ++ s) "" then [] else [word ++ s].
Proof.
  revert word. induction s as [|c r IH]; intros word Hs.
  - simpl. by rewrite append_empty_r.
  - unfold is_solid in Hs. simpl in Hs. apply andb_prop in Hs as [Hc Hr].
    simpl. apply negb_true_iff in Hc. rewrite Hc.
    rewrite (IH _ Hr), append_assoc. reflexivity.
Qed.

(** A word that ends at a character of white space. *)
Lemma split_from_solid_space (word s : string) (c : ascii) (r : string) :
  is_solid s = true ->
  isspace c = true ->
  split_from word (s ++ String c r)
  = ((if String.eqb (word ++ s)%string "" then []
      else [(word ++ s)%string])
       ++ split_from "" r)%list.
Proof.
  revert word. induction s as [|d s IH]; intros word Hs Hc.
  - rewrite append_empty_l, append_empty_r. simpl. rewrite Hc.
    destruct (String.eqb word ""); reflexivity.
  - unfold is_solid in Hs. simpl in Hs. apply andb_prop in Hs as [Hd Hs].
    rewrite append_cons. simpl. apply negb_true_iff in Hd. rewrite Hd.
    rewrite (IH _ Hs Hc), append_assoc. reflexivity.
Qed.

(** White space before the first word is skipped. *)
Lemma split_from_blank_app (b r : string) :
  is_blank b = true ->
  split_from "" (b ++ r) = split_from "" r.
Proof.
  unfold is_blank. induction b as [|c b IH]; [reflexivity|].
  rewrite append_cons. simpl.
  intros [Hc Hb]%andb_prop. rewrite Hc. auto.
Qed.

(** The components of a split are not empty and hold no white space. *)
Lemma split_from_components (word s : string) :
  is_solid word = true ->
  Forall (fun x => x <> "" /\ is_solid x = true) (split_from word s).
Proof.
  revert word. induction s as [|c r IH]; intros word Hw; simpl.
  - destruct (String.eqb_spec word ""); constructor; [|constructor].
    split; assumption.
  - destruct (isspace c) eqn:Hc.
    + destruct (String.eqb_spec word "").
      * apply IH. reflexivity.
      * constructor; [split; assumption|]. apply IH. reflexivity.
    + apply IH. rewrite is_solid_app, Hw. unfold is_solid. simpl.
      by rewrite Hc.
Qed.

Lemma lower_not_empty (s : string) : lower s = "bearer" -> s <> "".
Proof. intros H ->. discriminate H. Qed.

(** ** More on the token extractor *)

(** X1: a header value made of a scheme that is [Bearer] in any case
    and of a token without white space, with white space between them
    and possibly around them, yields that token. *)
Theorem get_token_auth_header_bearer (e : env)
    (pad1 scheme sep token pad2 : string) :
  request_headers e !! "Authorization"
    = Some (pad1 ++ scheme ++ sep ++ token ++ pad2) ->
  is_blank pad1 = true -> is_blank sep = true -> is_blank pad2 = true ->
  sep <> "" ->
  is_solid scheme = true -> lower scheme = "bearer" ->
  is_solid token = true -> token <> "" ->
  get_token_auth_header e = Ok token.
Proof.
  intros Hv Hp1 Hsep Hp2 Hne Hscheme Hlower Htoken Htne.
  assert (Hsplit : split (pad1 ++ scheme ++ sep ++ token ++ pad2)
                   = [scheme; token]).
  { unfold split. rewrite split_from_blank_app by assumption.
    destruct sep as [|c sep']; [contradiction|].
    unfold is_blank in Hsep. simpl in Hsep.
    apply andb_prop in Hsep as [Hc Hsep'].
    rewrite append_cons, split_from_solid_space by assumption.
    rewrite append_empty_l.
    destruct (String.eqb_spec scheme "") as [->|_]; [discriminate Hlower|].
    rewrite split_from_blank_app by exact Hsep'.
    destruct pad2 as [|c2 pad2'].
    - rewrite append_empty_r, split_from_solid by assumption.
      rewrite append_empty_l.
      destruct (String.eqb_spec token ""); [contradiction | reflexivity].
    - unfold is_blank in Hp2. simpl in Hp2.
      apply andb_prop in Hp2 as [Hc2 Hp2'].
      rewrite split_from_solid_space by assumption.
      rewrite append_empty_l.
      destruct (String.eqb_spec token ""); [contradiction|].
      rewrite split_from_blank by exact Hp2'. reflexivity. }
  rewrite (get_token_auth_header_components e _ scheme [token] Hv Hsplit).
  rewrite Hlower. reflexivity.
Qed.

Lemma get_token_auth_header_bearer_witness :
  get_token_auth_header
    (Demo.request [("Authorization", " BEARER  abc.def.ghi ")]
       (Ok Demo.jwks) 0)
  = Ok "abc.def.ghi".
Proof.
  exact (get_token_auth_header_bearer
           (Demo.request [("Authorization", " BEARER  abc.def.ghi ")]
              (Ok Demo.jwks) 0)
           " " "BEARER" "  " "abc.def.ghi" " "
           eq_refl eq_refl eq_refl eq_refl
           ltac:(discriminate) eq_refl eq_refl eq_refl ltac:(discriminate)).
Defined.

(** X2: a token returned by [get_token_auth_header] is not empty and
    holds no white space; it is the second of exactly two components of
    the header value, the first of which is [bearer] in lower case. *)
Theorem get_token_auth_header_Ok (e : env) (token : string) :
  get_token_auth_header e = Ok token ->
  token <> "" /\ is_solid token = true
  /\ exists v scheme,
       request_headers e !! "Authorization" = Some v
       /\ split v = [scheme; token]
       /\ lower scheme = "bearer".
Proof.
  unfold get_token_auth_header.
  destruct (request_headers e !! "Authorization") as [v|] eqn:Hv;
    [|discriminate].
  pose proof (split_from_components "" v eq_refl) as Hall.
  fold (split v) in Hall.
  destruct (split v) as [|scheme [|tok [|? ?]]] eqn:Hs; simpl;
    try discriminate;
    destruct (String.eqb_spec (lower scheme) "bearer") as [Hl|Hl]; simpl;
    try discriminate.
  intros [= <-].
  apply Forall_cons in Hall as [_ Hall].
  apply Forall_cons in Hall as [[Hne Hsolid] _].
  repeat split; try assumption. exists v, scheme. auto.
Qed.

Lemma get_token_auth_header_Ok_witness :
  "k2-token" <> "" /\ is_solid "k2-token" = true.
Proof.
  pose proof (get_token_auth_header_Ok
                (Demo.request (Demo.bearer "k2-token") (Ok Demo.jwks) 0)
                "k2-token" eq_refl) as (Hne & Hsolid & _).
  exact (conj Hne Hsolid).
Defined.

(** ** More on the permission enforcer *)

Lemma prefix_append (p b : string) : String.prefix p (p ++ b) = true.
Proof.
  induction p as [|c p IH]; [by destruct b|].
  rewrite append_cons. simpl.
  destruct (ascii_dec c c); [exact IH | contradiction].
Qed.

Lemma is_substring_eq (p s : string) :
  is_substring p s
  = String.prefix p s
    || match s with
       | EmptyString => false
       | String _ r => is_substring p r
       end.
Proof. destruct s; reflexivity. Qed.

Lemma is_substring_append (a p b : string) :
  is_substring p (a ++ p ++ b) = true.
Proof.
  induction a as [|c a IH].
  - by rewrite append_empty_l, is_substring_eq, prefix_append.
  - rewrite append_cons, is_substring_eq, IH. apply orb_true_r.
Qed.

(** X3: [check_permissions] returns nothing but [True], and only when
    the payload has a [permissions] item that holds the required
    permission. *)
Theorem check_permissions_Ok (permission : string) (payload : json)
    (b : bool) :
  check_permissions permission payload = Ok b ->
  b = true
  /\ exists permissions,
       getitem payload "permissions" = Ok permissions
       /\ contains permissions permission = Ok true.
Proof.
  unfold check_permissions.
  destruct (contains payload "permissions") as [[|]|]; cbn -[contains];
    try discriminate.
  destruct (getitem payload "permissions") as [permissions|];
    cbn -[contains]; [|discriminate].
  destruct (contains permissions permission) as [[|]|] eqn:E;
    cbn; try discriminate.
  intros [= <-]. eauto.
Qed.

Lemma check_permissions_Ok_witness :
  exists permissions,
    getitem Demo.claims "permissions" = Ok permissions
    /\ contains permissions "get:drinks-detail" = Ok true.
Proof.
  exact (proj2 (check_permissions_Ok "get:drinks-detail" Demo.claims true
                  eq_refl)).
Defined.

(** X4: when the [permissions] claim is a string and not a sequence,
    [check_permissions] tests for a substring: every permission that
    occurs anywhere inside the claim is granted. *)
Theorem check_permissions_string_claim (permission : string)
    (claims : list (string * json)) (a b : string) :
  assoc "permissions" claims = Some (JStr (a ++ permission ++ b)) ->
  check_permissions permission (JObj claims) = Ok true.
Proof.
  intros Hp. unfold check_permissions. cbn [contains getitem].
  rewrite assoc_existsb, Hp. cbn. by rewrite is_substring_append.
Qed.

Lemma check_permissions_string_claim_witness :
  check_permissions "post:drinks"
    (JObj [("permissions", JStr "get:drinks-detail post:drinks-archive")])
  = Ok true.
Proof.
  exact (check_permissions_string_claim "post:drinks"
           [("permissions", JStr "get:drinks-detail post:drinks-archive")]
           "get:drinks-detail " "-archive" eq_refl).
Defined.

(** X5: when the [permissions] claim is [null], a boolean or a number,
    the membership test of [check_permissions] raises [TypeError], which
    is no [AuthError] and is answered with status 500. *)
Theorem check_permissions_not_iterable (permission : string)
    (claims : list (string * json)) (v : json) :
  assoc "permissions" claims = Some v ->
  v = JNull \/ (exists b, v = JBool b) \/ (exists n, v = JNum n) ->
  check_permissions permission (JObj claims) = Raise TypeError
  /\ response_status TypeError = 500.
Proof.
  intros Hp Hv. split; [|reflexivity].
  unfold check_permissions. cbn [contains getitem].
  rewrite assoc_existsb, Hp. cbn.
  destruct Hv as [-> | [[b ->] | [n ->]]]; reflexivity.
Qed.

Lemma check_permissions_not_iterable_witness :
  check_permissions "post:drinks" (JObj [("permissions", JNull)])
  = Raise TypeError.
Proof.
  exact (proj1 (check_permissions_not_iterable "post:drinks"
                  [("permissions", JNull)] JNull eq_refl
                  (or_introl eq_refl))).
Defined.

(** ** More on [api.py] *)

(** X6: [get_error_message] returns the description of a dict that has
    one and the default text for a value that is no dict; for a dict
    without description its [KeyError] is not caught, and an [AuthError]
    that carries such a dict is answered with status 500 and not with
    its own status. *)
Theorem get_error_message_cases (error : json) (default_text : string) :
  (forall kvs description,
     error = JObj kvs -> assoc "description" kvs = Some description ->
     get_error_message error default_text = Ok description)
  /\ (forall kvs status_code,
        error = JObj kvs -> assoc "description" kvs = None ->
        get_error_message error default_text
        = Raise (KeyError "description")
        /\ response_status (AuthError error status_code) = 500)
  /\ ((forall kvs, error <> JObj kvs) ->
      get_error_message error default_text = Ok (JStr default_text)).
Proof.
  unfold response_status, unautherized, get_error_message.
  split; [|split].
  - intros kvs d -> Hd. cbn. by rewrite Hd.
  - intros kvs status_code -> Hd. cbn. by rewrite Hd.
  - intros Hno. destruct error; try reflexivity. by destruct (Hno kvs).
Qed.

Lemma get_error_message_cases_witness :
  get_error_message (error_dict 402 "Invalid form of autherization token")
    "Unautherized"
  = Ok (JStr "Invalid form of autherization token")
  /\ get_error_message (JObj [("code", JNum 401)]) "Unautherized"
     = Raise (KeyError "description")
  /\ get_error_message (JStr "Permissions not included in JWT")
       "Unautherized"
     = Ok (JStr "Unautherized").
Proof.
  pose proof (get_error_message_cases
                (error_dict 402 "Invalid form of autherization token")
                "Unautherized") as (Hdict & _).
  pose proof (get_error_message_cases (JObj [("code", JNum 401)])
                "Unautherized") as (_ & Hkey & _).
  pose proof (get_error_message_cases
                (JStr "Permissions not included in JWT") "Unautherized")
    as (_ & _ & Hdefault).
  split; [exact (Hdict _ _ eq_refl eq_refl)|].
  split; [exact (proj1 (Hkey _ 401 eq_refl eq_refl))|].
  apply Hdefault. intros kvs. discriminate.
Defined.

(** X7: the handlers of the HTTP errors answer an [abort] with their
    own default text, whatever description the exception carries; the
    status is the code of the body for 400, 404 and 422, and the handler
    of 409 answers with status 404. *)
Theorem http_handlers_on_abort (code : Z) (description : string) :
  let error := HTTPException code description in
  bad_request error = Ok (failure_body 400 (JStr "bad request"), 400)
  /\ resource_not_found error
     = Ok (failure_body 404 (JStr "resource not found"), 404)
  /\ conflict error
     = Ok (failure_body 409 (JStr "Resourse already exists."), 404)
  /\ unprocessable error
     = Ok (failure_body 422 (JStr "unprocessable"), 422).
Proof. repeat split. Qed.

(** ** More on the verifier *)

Lemma getitem_raise (v : json) (k : string) (err : exn) :
  getitem v k = Raise err -> err = KeyError k \/ err = TypeError.
Proof.
  destruct v; simpl; try (intros [= <-]; by right).
  destruct (assoc k kvs); [discriminate|]. intros [= <-]. by left.
Qed.

Lemma getitem_raise_status (v : json) (k : string) (err : exn) :
  getitem v k = Raise err ->
  is_AuthError err = false /\ response_status err = 500.
Proof. intros [-> | ->]%getitem_raise; split; reflexivity. Qed.

Lemma rsa_key_of_raise (key : json) (err : exn) :
  rsa_key_of key = Raise err ->
  is_AuthError err = false /\ response_status err = 500.
Proof.
  unfold rsa_key_of.
  destruct (getitem key "kty") eqn:E1;
    [|intros [= <-]; by eapply getitem_raise_status].
  destruct (getitem key "kid") eqn:E2;
    [|intros [= <-]; by eapply getitem_raise_status].
  destruct (getitem key "use") eqn:E3;
    [|intros [= <-]; by eapply getitem_raise_status].
  destruct (getitem key "n") eqn:E4;
    [|intros [= <-]; by eapply getitem_raise_status].
  destruct (getitem key "e") eqn:E5;
    [|intros [= <-]; by eapply getitem_raise_status].
  discriminate.
Qed.

(** What the loop returns is the dict it started with or one built from
    an entry of the key set that has the wanted key id. *)
Lemma match_keys_result (unverified_header : json) (keys : list json)
    (RSA_key0 RSA_key : json) :
  match_keys unverified_header keys RSA_key0 = Ok RSA_key ->
  RSA_key = RSA_key0
  \/ exists wanted key,
       getitem unverified_header "kid" = Ok wanted
       /\ key ∈ keys
       /\ key_matches wanted key = true
       /\ rsa_key_of key = Ok RSA_key.
Proof.
  revert RSA_key0. induction keys as [|key rest IH]; intros RSA_key0.
  - intros [= <-]. by left.
  - cbn [match_keys]. unfold key_matches.
    destruct (getitem key "kid") as [kid|] eqn:Ekid; [|discriminate].
    destruct (getitem unverified_header "kid") as [wanted|] eqn:Ew;
      [|discriminate].
    cbn [mbind result_bind].
    destruct (py_eq kid wanted) eqn:Eeq.
    + destruct (rsa_key_of key) as [K|] eqn:EK; [|discriminate].
      cbn [mbind result_bind]. intros H.
      destruct (IH _ H) as [-> | (wanted' & key' & Hw & Hin & Hm & Hr)].
      * right. exists wanted, key. rewrite Ekid.
        repeat split; try assumption. apply list_elem_of_here.
      * right. exists wanted', key'.
        repeat split; try assumption. by apply list_elem_of_further.
    + intros H.
      destruct (IH _ H) as [-> | (wanted' & key' & Hw & Hin & Hm & Hr)].
      * by left.
      * right. exists wanted', key'.
        repeat split; try assumption. by apply list_elem_of_further.
Qed.

(** The loop stops with the error of the first entry it cannot read. *)
Lemma match_keys_raise (unverified_header wanted : json)
    (before : list json) (key : json) (later : list json)
    (RSA_key0 : json) (err : exn) :
  getitem unverified_header "kid" = Ok wanted ->
  Forall (fun k => is_key_entry k = true) before ->
  getitem key "kid" = Raise err
  \/ (key_matches wanted key = true /\ rsa_key_of key = Raise err) ->
  match_keys unverified_header (before ++ key :: later) RSA_key0
  = Raise err.
Proof.
  intros Hw Hbefore Hbad. revert RSA_key0.
  induction Hbefore as [|k rest Hk _ IH]; intros RSA_key0.
  - cbn [List.app match_keys]. unfold key_matches in Hbad.
    destruct Hbad as [-> | [Hm Hr]]; [reflexivity|].
    destruct (getitem key "kid") as [kid|]; [|discriminate].
    rewrite Hw. cbn [mbind result_bind]. rewrite Hm, Hr. reflexivity.
  - cbn [List.app match_keys].
    destruct (is_key_entry_kid k Hk) as (kid & r & -> & ->).
    rewrite Hw. cbn [mbind result_bind].
    destruct (py_eq kid wanted); apply IH.
Qed.

(** The error of [rsa_key_of] on an entry that has a [kid]: of the
    fields in the order in which lines 115-119 read them, the first
    that the entry lacks. *)
Lemma rsa_key_of_raise_first (wanted key : json) (error : exn) :
  key_matches wanted key = true ->
  rsa_key_of key = Raise error ->
  exists present field later,
    ["kty"; "kid"; "use"; "n"; "e"] = (present ++ field :: later)%list
    /\ Forall (fun k => exists v, getitem key k = Ok v) present
    /\ getitem key field = Raise (KeyError field)
    /\ error = KeyError field
    /\ field ∈ ["kty"; "use"; "n"; "e"].
Proof.
  unfold key_matches, rsa_key_of.
  destruct key; try discriminate. cbn [getitem].
  destruct (assoc "kid" kvs) as [vkid|] eqn:E0; [|discriminate]. intros _.
  destruct (assoc "kty" kvs) as [vkty|] eqn:E1; cbn [mbind result_bind].
  2:{ intros [= <-]. exists [], "kty", ["kid"; "use"; "n"; "e"].
      rewrite E1. repeat split; [constructor | set_solver]. }
  destruct (assoc "use" kvs) as [vuse|] eqn:E2; cbn [mbind result_bind].
  2:{ intros [= <-]. exists ["kty"; "kid"], "use", ["n"; "e"].
      rewrite E2. repeat split; [|set_solver].
      repeat constructor; [exists vkty; by rewrite E1
                          | exists vkid; by rewrite E0]. }
  destruct (assoc "n" kvs) as [vn|] eqn:E3; cbn [mbind result_bind].
  2:{ intros [= <-]. exists ["kty"; "kid"; "use"], "n", ["e"].
      rewrite E3. repeat split; [|set_solver].
      repeat constructor; [exists vkty; by rewrite E1
                          | exists vkid; by rewrite E0
                          | exists vuse; by rewrite E2]. }
  destruct (assoc "e" kvs) as [ve|] eqn:E4; cbn [mbind result_bind].
  2:{ intros [= <-]. exists ["kty"; "kid"; "use"; "n"], "e", [].
      rewrite E4. repeat split; [|set_solver].
      repeat constructor; [exists vkty; by rewrite E1
                          | exists vkid; by rewrite E0
                          | exists vuse; by rewrite E2
                          | exists vn; by rewrite E3]. }
  discriminate.
Qed.

Section VerifierRuns.
Context {S : Type}.
Variable lib : jose.
Implicit Types (e : env) (w : world S) (token : string).

(** [verify_decode_jwt] step by step. *)
Lemma verify_decode_jwt_run e token w :
  verify_decode_jwt lib e token w =
    match urlopen_json e jwks_url with
    | Raise err => (Raise err, after w [Curlopen jwks_url])
    | Ok jwks =>
        let w2 := after w [Curlopen jwks_url; Cget_unverified_header token] in
        match get_unverified_header lib token with
        | Raise err => (Raise err, w2)
        | Ok unverified_header =>
            match contains unverified_header "kid" with
            | Raise err => (Raise err, w2)
            | Ok false => (Raise MissingKeyId, w2)
            | Ok true =>
                match getitem jwks "keys" ≫= iter with
                | Raise err => (Raise err, w2)
                | Ok keys =>
                    match match_keys unverified_header keys (JObj []) with
                    | Raise err => (Raise err, w2)
                    | Ok RSA_key =>
                        if truthy RSA_key
                        then decode_with lib e token RSA_key w2
                        else (Raise NoTokenProvided, w2)
                    end
                end
            end
        end
    end.
Proof.
  unfold verify_decode_jwt. run.
  assert (Hw2 : forall c1 c2 : call,
    {| app_state := app_state w; calls := (calls w ++ [c1]) ++ [c2] |}
    = after w [c1; c2]).
  { intros c1 c2. unfold after. by rewrite <- List.app_assoc. }
  destruct (urlopen_json e jwks_url) as [jwks|]; [|reflexivity].
  rewrite Hw2.
  destruct (get_unverified_header lib token) as [hdr|]; [|reflexivity].
  destruct (contains hdr "kid") as [[|]|]; try reflexivity. cbn [negb].
  destruct (getitem jwks "keys" ≫= iter) as [keys|] eqn:Ek.
  - unfold mbind, result_bind in Ek. rewrite Ek.
    destruct (match_keys hdr keys (JObj [])) as [K|]; [|reflexivity].
    destruct (truthy K); reflexivity.
  - unfold mbind, result_bind in Ek. rewrite Ek. reflexivity.
Qed.

End VerifierRuns.

Section VerifierTwice.
Context {S : Type}.
Variable lib : jose.
Implicit Types (e : env) (w : world S) (token : string).

(** C8: when a run of the verifier returns claims, these are what
    [jwt.decode] returned for the token under a key built from an entry
    of the fetched key set that has the key id of the token, and the
    run left the world as it found it but for its three calls.  A
    second run on the same token that sees the same key set and the
    same time, started in the world the first run left or in any other
    world, fetches the key set, reads the header and calls [jwt.decode]
    with the same key again, and returns the same claims: it uses
    nothing the first run left behind, and neither run changes the
    state of the application, which stands for every state the two runs
    share. *)
Theorem verify_decode_jwt_twice e1 e2 token (claims : json)
    (w w1 : world S) :
  urlopen_json e1 jwks_url = urlopen_json e2 jwks_url ->
  clock e1 = clock e2 ->
  verify_decode_jwt lib e1 token w = (Ok claims, w1) ->
  exists RSA_key,
    (exists jwks keys unverified_header wanted key,
       urlopen_json e1 jwks_url = Ok jwks
       /\ (getitem jwks "keys" ≫= iter) = Ok keys
       /\ get_unverified_header lib token = Ok unverified_header
       /\ getitem unverified_header "kid" = Ok wanted
       /\ key ∈ keys
       /\ key_matches wanted key = true
       /\ rsa_key_of key = Ok RSA_key)
    /\ decode lib (clock e1) token RSA_key ["RS256"] None "coffee"
         "https://starbucks-app.eu.auth0.com/"
       = Ok claims
    /\ w1 = after w [Curlopen jwks_url; Cget_unverified_header token;
                     Cdecode token RSA_key ["RS256"] None "coffee"
                       "https://starbucks-app.eu.auth0.com/"]
    /\ (forall w' : world S,
          verify_decode_jwt lib e2 token w'
          = (Ok claims,
             after w' [Curlopen jwks_url; Cget_unverified_header token;
                       Cdecode token RSA_key ["RS256"] None "coffee"
                         "https://starbucks-app.eu.auth0.com/"]))
    /\ (exists w2,
          verify_decode_jwt lib e2 token w1 = (Ok claims, w2)
          /\ app_state w1 = app_state w
          /\ app_state w2 = app_state w).
Proof.
  intros Hfetch Hclock Hrun.
  rewrite verify_decode_jwt_run in Hrun.
  destruct (urlopen_json e1 jwks_url) as [jwks|] eqn:E1; [|discriminate].
  cbv zeta in Hrun.
  destruct (get_unverified_header lib token) as [hdr|] eqn:E2;
    [|discriminate].
  destruct (contains hdr "kid") as [[|]|] eqn:E3; try discriminate.
  destruct (getitem jwks "keys" ≫= iter) as [keys|] eqn:E4; [|discriminate].
  destruct (match_keys hdr keys (JObj [])) as [K|] eqn:E5; [|discriminate].
  destruct (truthy K) eqn:E6; [|discriminate].
  rewrite decode_with_run, after_after in Hrun.
  destruct (decode lib (clock e1) token K ALGORITHMS None API_AUDIENCE issuer)
    as [payload|err] eqn:E7.
  2:{ destruct err; try discriminate;
        destruct (is_Exception _); discriminate. }
  injection Hrun as -> <-.
  assert (Hagain : forall w' : world S,
    verify_decode_jwt lib e2 token w'
    = (Ok claims,
       after w' [Curlopen jwks_url; Cget_unverified_header token;
                 Cdecode token K ["RS256"] None "coffee"
                   "https://starbucks-app.eu.auth0.com/"])).
  { intros w'. rewrite verify_decode_jwt_run, <- Hfetch. cbv zeta.
    rewrite E2, E3, E4, E5, E6, decode_with_run, <- Hclock, E7, after_after.
    reflexivity. }
  exists K. split; [|split; [exact E7|split; [reflexivity|split]]].
  - destruct (match_keys_result _ _ _ _ E5)
      as [-> | (wanted & key & Hw & Hin & Hm & Hr)]; [discriminate E6|].
    exists jwks, keys, hdr, wanted, key. repeat split; assumption.
  - exact Hagain.
  - eexists. split; [apply Hagain|]. split; reflexivity.
Qed.

End VerifierTwice.

(** The second run is made for another request, at the same time, in
    the world the first run left. *)
Lemma verify_decode_jwt_twice_witness :
  decode Demo.lib 999 "k2-token" Demo.rsa_new ["RS256"] None "coffee"
    "https://starbucks-app.eu.auth0.com/"
  = Ok Demo.claims
  /\ verify_decode_jwt Demo.lib
       (Demo.request [] (Ok Demo.jwks) 999) "k2-token"
       (after Demo.w0
          [Curlopen jwks_url; Cget_unverified_header "k2-token";
           Cdecode "k2-token" Demo.rsa_new ["RS256"] None "coffee"
             "https://starbucks-app.eu.auth0.com/"])
     = (Ok Demo.claims,
        after Demo.w0
          [Curlopen jwks_url; Cget_unverified_header "k2-token";
           Cdecode "k2-token" Demo.rsa_new ["RS256"] None "coffee"
             "https://starbucks-app.eu.auth0.com/";
           Curlopen jwks_url; Cget_unverified_header "k2-token";
           Cdecode "k2-token" Demo.rsa_new ["RS256"] None "coffee"
             "https://starbucks-app.eu.auth0.com/"]).
Proof.
  destruct (verify_decode_jwt_twice Demo.lib
              (Demo.request (Demo.bearer "k2-token") (Ok Demo.jwks) 999)
              (Demo.request [] (Ok Demo.jwks) 999)
              "k2-token" Demo.claims Demo.w0
              (after Demo.w0
                 [Curlopen jwks_url; Cget_unverified_header "k2-token";
                  Cdecode "k2-token" Demo.rsa_new ["RS256"] None
                    "coffee" "https://starbucks-app.eu.auth0.com/"])
              eq_refl eq_refl eq_refl)
    as (K & _ & Hdec & Hw1 & Hagain & _).
  apply (f_equal calls) in Hw1. cbn in Hw1. injection Hw1 as <-.
  split; [exact Hdec|].
  rewrite Hagain. reflexivity.
Defined.

Section VerifierExtras.
Context {S : Type}.
Variable lib : jose.
Implicit Types (e : env) (w : world S) (token : string).

(** X8: when the header of the token is a dict without [kid], the
    verifier raises [MissingKeyId], which carries and is answered with
    status 401, whatever the fetched key set holds; [jwt.decode] is not
    called. *)
Theorem verify_decode_jwt_missing_kid e token (jwks : json)
    (header : list (string * json)) w :
  urlopen_json e jwks_url = Ok jwks ->
  get_unverified_header lib token = Ok (JObj header) ->
  assoc "kid" header = None ->
  verify_decode_jwt lib e token w
  = (Raise MissingKeyId,
     after w [Curlopen jwks_url; Cget_unverified_header token])
  /\ MissingKeyId = AuthError (error_dict 401 "Missing argument.") 401
  /\ response_status MissingKeyId = 401.
Proof.
  intros Hfetch Hhdr Hkid. repeat split.
  rewrite verify_decode_jwt_run, Hfetch, Hhdr. cbn [contains].
  rewrite assoc_existsb, Hkid. reflexivity.
Qed.

(** X9: when [jwt.get_unverified_header] raises, as python-jose does on
    a token it cannot split or whose header it cannot read, the verifier
    raises that error as it is, after the fetch of the key set and
    without calling [jwt.decode]; not being an [AuthError] it is
    answered with status 500, not with [TokenUnparseable]. *)
Theorem verify_decode_jwt_header_error e token (jwks : json)
    (error : exn) w :
  urlopen_json e jwks_url = Ok jwks ->
  get_unverified_header lib token = Raise error ->
  is_AuthError error = false ->
  verify_decode_jwt lib e token w
  = (Raise error, after w [Curlopen jwks_url; Cget_unverified_header token])
  /\ response_status error = 500
  /\ Raise (A := json) error <> Raise TokenUnparseable.
Proof.
  intros Hfetch Hhdr Hnot. split; [|split].
  - by rewrite verify_decode_jwt_run, Hfetch, Hhdr.
  - destruct error; try reflexivity; discriminate.
  - intros [= ->]. discriminate.
Qed.

(** X10: when the key id of the token matches a key of the key set and
    [jwt.decode] raises [JWTClaimsError], as python-jose does on a wrong
    audience or issuer, the verifier raises [ClaimsInvalid], which
    carries and is answered with status 401. *)
Theorem verify_decode_jwt_claims_error e token (RSA_key : json) w :
  selects lib e token RSA_key ->
  decode lib (clock e) token RSA_key ["RS256"] None API_AUDIENCE issuer
    = Raise JWTClaimsError ->
  verify_decode_jwt lib e token w
  = (Raise ClaimsInvalid,
     after w [Curlopen jwks_url; Cget_unverified_header token;
              Cdecode token RSA_key ["RS256"] None API_AUDIENCE issuer])
  /\ ClaimsInvalid
     = AuthError
         (error_dict 401
            "Incorrect claims. Please, check the audience and issuer.") 401
  /\ response_status ClaimsInvalid = 401.
Proof.
  intros Hsel Hdec. repeat split.
  rewrite (verify_decode_jwt_selects lib e token RSA_key w Hsel).
  rewrite decode_with_run. change ALGORITHMS with ["RS256"].
  rewrite Hdec, after_after. reflexivity.
Qed.

(** X11: when the key id of the token matches a key of the key set and
    [jwt.decode] returns a payload, the verifier returns that payload as
    it is, after exactly three calls. *)
Theorem verify_decode_jwt_returns_payload e token (RSA_key payload : json)
    w :
  selects lib e token RSA_key ->
  decode lib (clock e) token RSA_key ["RS256"] None API_AUDIENCE issuer
    = Ok payload ->
  verify_decode_jwt lib e token w
  = (Ok payload,
     after w [Curlopen jwks_url; Cget_unverified_header token;
              Cdecode token RSA_key ["RS256"] None API_AUDIENCE issuer]).
Proof.
  intros Hsel Hdec.
  rewrite (verify_decode_jwt_selects lib e token RSA_key w Hsel).
  rewrite decode_with_run. change ALGORITHMS with ["RS256"].
  rewrite Hdec, after_after. reflexivity.
Qed.

(** X12: the verifier returns a payload only if [jwt.decode] returned
    it for this token, at the time of the request, for the algorithm
    RS256, the audience [coffee] and the issuer of the domain, under a
    key built from an entry of the fetched key set whose key id equals
    that of the token. *)
Theorem verify_decode_jwt_sound e token (payload : json) w :
  fst (verify_decode_jwt lib e token w) = Ok payload ->
  exists jwks keys unverified_header wanted key RSA_key,
    urlopen_json e jwks_url = Ok jwks
    /\ (getitem jwks "keys" ≫= iter) = Ok keys
    /\ get_unverified_header lib token = Ok unverified_header
    /\ getitem unverified_header "kid" = Ok wanted
    /\ key ∈ keys
    /\ key_matches wanted key = true
    /\ rsa_key_of key = Ok RSA_key
    /\ decode lib (clock e) token RSA_key ["RS256"] None "coffee"
         "https://starbucks-app.eu.auth0.com/"
       = Ok payload.
Proof.
  rewrite verify_decode_jwt_run.
  destruct (urlopen_json e jwks_url) as [jwks|] eqn:Efetch; [|discriminate].
  destruct (get_unverified_header lib token) as [hdr|] eqn:Ehdr;
    [|discriminate].
  cbv zeta.
  destruct (contains hdr "kid") as [[|]|]; try discriminate.
  destruct (getitem jwks "keys" ≫= iter) as [keys|] eqn:Ekeys;
    [|discriminate].
  destruct (match_keys hdr keys (JObj [])) as [K|] eqn:EK; [|discriminate].
  destruct (truthy K) eqn:Etruthy; [|discriminate].
  rewrite decode_with_run. cbn [fst].
  destruct (decode lib (clock e) token K ALGORITHMS None API_AUDIENCE issuer)
    as [p|err] eqn:Edec.
  - intros [= ->].
    destruct (match_keys_result _ _ _ _ EK)
      as [-> | (wanted & key & Hw & Hin & Hm & Hr)]; [discriminate|].
    exists jwks, keys, hdr, wanted, key, K.
    repeat split; first [assumption | exact Edec].
  - destruct err; try discriminate; destruct (is_Exception _); discriminate.
Qed.

(** The calls of one run of the verifier. *)
Lemma verify_decode_jwt_trace e token w :
  exists cs,
    snd (verify_decode_jwt lib e token w) = after w (Curlopen jwks_url :: cs)
    /\ (cs = []
     \/ cs = [Cget_unverified_header token]
     \/ exists RSA_key,
          cs = [Cget_unverified_header token;
                Cdecode token RSA_key ["RS256"] None "coffee"
                  "https://starbucks-app.eu.auth0.com/"]).
Proof.
  rewrite verify_decode_jwt_run.
  destruct (urlopen_json e jwks_url) as [jwks|]; [|by exists []; auto].
  cbv zeta.
  assert (Htwo : exists cs,
    after w [Curlopen jwks_url; Cget_unverified_header token]
    = after w (Curlopen jwks_url :: cs)
    /\ (cs = []
     \/ cs = [Cget_unverified_header token]
     \/ exists RSA_key,
          cs = [Cget_unverified_header token;
                Cdecode token RSA_key ["RS256"] None "coffee"
                  "https://starbucks-app.eu.auth0.com/"])).
  { exists [Cget_unverified_header token]. auto. }
  destruct (get_unverified_header lib token) as [hdr|]; [|exact Htwo].
  destruct (contains hdr "kid") as [[|]|]; try exact Htwo.
  destruct (getitem jwks "keys" ≫= iter) as [keys|]; [|exact Htwo].
  destruct (match_keys hdr keys (JObj [])) as [K|]; [|exact Htwo].
  destruct (truthy K); [|exact Htwo].
  rewrite decode_with_run, after_after. cbn [snd].
  eexists. split; [reflexivity|]. right. right. by exists K.
Qed.

(** X13: every run of the verifier begins with the fetch of the key
    set, whatever the token; it then reads the header of the token at
    most once and calls [jwt.decode] at most once, last, and never with
    other algorithms than RS256, with options, or with another audience
    or issuer. *)
Theorem verify_decode_jwt_calls e token w :
  exists cs,
    calls (snd (verify_decode_jwt lib e token w))
    = (calls w ++ Curlopen jwks_url :: cs)%list
    /\ (cs = []
     \/ cs = [Cget_unverified_header token]
     \/ exists RSA_key,
          cs = [Cget_unverified_header token;
                Cdecode token RSA_key ["RS256"] None "coffee"
                  "https://starbucks-app.eu.auth0.com/"]).
Proof.
  destruct (verify_decode_jwt_trace e token w) as (cs & Hw & Hcs).
  exists cs. rewrite Hw. split; [reflexivity | exact Hcs].
Qed.

(** X14: when an entry of the key set cannot give its [kid] (a dict
    without that key raises [KeyError], another value [TypeError]) and
    the entries before it are keys, the verifier raises that error,
    whether or not an entry before it matched; it is answered with
    status 500 and [jwt.decode] is not called. *)
Theorem verify_decode_jwt_entry_without_kid e token
    (jwks unverified_header wanted : json)
    (before : list json) (key : json) (later : list json)
    (error : exn) w :
  urlopen_json e jwks_url = Ok jwks ->
  getitem jwks "keys" = Ok (JArr (before ++ key :: later)) ->
  get_unverified_header lib token = Ok unverified_header ->
  getitem unverified_header "kid" = Ok wanted ->
  Forall (fun k => is_key_entry k = true) before ->
  getitem key "kid" = Raise error ->
  verify_decode_jwt lib e token w
  = (Raise error, after w [Curlopen jwks_url; Cget_unverified_header token])
  /\ (error = KeyError "kid" \/ error = TypeError)
  /\ response_status error = 500.
Proof.
  intros Hfetch Hkeys Hhdr Hkid Hbefore Hbad. split; [|split].
  - rewrite verify_decode_jwt_run, Hfetch, Hhdr.
    rewrite (getitem_contains _ _ _ Hkid), Hkeys. cbn [mbind result_bind iter].
    rewrite (match_keys_raise unverified_header wanted before key later
               (JObj []) error) by auto.
    reflexivity.
  - by apply getitem_raise in Hbad.
  - by apply getitem_raise_status in Hbad as [_ ?].
Qed.

(** X15: when the last entry that has the key id of the token lacks one
    of the fields [kty], [use], [n], [e] -- [use] is an optional member
    of a JSON Web Key -- building the key raises [KeyError] for the
    first field that is missing, in the order [kty], [kid], [use], [n],
    [e] in which lines 115-119 read them: every field before it is
    there.  The verifier raises that error, it is answered with status
    500 and [jwt.decode] is not called. *)
Theorem verify_decode_jwt_partial_entry e token
    (jwks unverified_header wanted : json)
    (before : list json) (key : json) (later : list json)
    (error : exn) w :
  urlopen_json e jwks_url = Ok jwks ->
  getitem jwks "keys" = Ok (JArr (before ++ key :: later)) ->
  get_unverified_header lib token = Ok unverified_header ->
  getitem unverified_header "kid" = Ok wanted ->
  Forall (fun k => is_key_entry k = true) before ->
  key_matches wanted key = true ->
  rsa_key_of key = Raise error ->
  verify_decode_jwt lib e token w
  = (Raise error, after w [Curlopen jwks_url; Cget_unverified_header token])
  /\ (exists present field later,
        ["kty"; "kid"; "use"; "n"; "e"] = (present ++ field :: later)%list
        /\ Forall (fun k => exists v, getitem key k = Ok v) present
        /\ getitem key field = Raise (KeyError field)
        /\ error = KeyError field
        /\ field ∈ ["kty"; "use"; "n"; "e"])
  /\ response_status error = 500.
Proof.
  intros Hfetch Hkeys Hhdr Hkid Hbefore Hm Hbad. split; [|split].
  - rewrite verify_decode_jwt_run, Hfetch, Hhdr.
    rewrite (getitem_contains _ _ _ Hkid), Hkeys. cbn [mbind result_bind iter].
    rewrite (match_keys_raise unverified_header wanted before key later
               (JObj []) error) by auto.
    reflexivity.
  - eapply rsa_key_of_raise_first; eassumption.
  - by apply rsa_key_of_raise in Hbad as [_ ?].
Qed.

(** X22: when the fetched document has no [keys] (a dict without that
    key raises [KeyError], a document that is no dict [TypeError]) or
    its [keys] cannot be iterated over, the verifier raises that error
    for a token whose header has a key id; it is answered with status
    500 and [jwt.decode] is not called. *)
Theorem verify_decode_jwt_no_keys e token
    (jwks unverified_header wanted : json) (error : exn) w :
  urlopen_json e jwks_url = Ok jwks ->
  get_unverified_header lib token = Ok unverified_header ->
  getitem unverified_header "kid" = Ok wanted ->
  (getitem jwks "keys" ≫= iter) = Raise error ->
  verify_decode_jwt lib e token w
  = (Raise error, after w [Curlopen jwks_url; Cget_unverified_header token])
  /\ (error = KeyError "keys" \/ error = TypeError)
  /\ response_status error = 500.
Proof.
  intros Hfetch Hhdr Hkid Hkeys.
  assert (Herr : error = KeyError "keys" \/ error = TypeError).
  { revert Hkeys. unfold mbind, result_bind.
    destruct (getitem jwks "keys") as [ks|] eqn:E.
    - destruct ks; cbn; try discriminate; intros [= <-]; by right.
    - intros [= <-]. by apply getitem_raise in E. }
  split; [|split; [exact Herr|]].
  - rewrite verify_decode_jwt_run, Hfetch, Hhdr.
    by rewrite (getitem_contains _ _ _ Hkid), Hkeys.
  - destruct Herr as [-> | ->]; reflexivity.
Qed.

End VerifierExtras.

(** ** More on the token extractor: its failures *)

Lemma split_from_nil (word s : string) :
  split_from word s = [] -> word = "" /\ is_blank s = true.
Proof.
  unfold is_blank. revert word. induction s as [|c r IH]; intros word; simpl.
  - destruct (String.eqb_spec word ""); [auto | discriminate].
  - destruct (isspace c).
    + destruct (String.eqb_spec word ""); [|discriminate].
      intros H. destruct (IH _ H). auto.
    + intros H. destruct (IH _ H) as [Hw _]. by destruct word.
Qed.

(** X16: [get_token_auth_header] fails in four ways and no other: with
    [MissingHeader] when there is no header, with [IndexError] when the
    value is blank, with [MalformedScheme] when the first component is
    not [bearer] in lower case, however many components there are, and
    with [MalformedHeader] when it is and the components are not two. *)
Theorem get_token_auth_header_Raise (e : env) (error : exn) :
  get_token_auth_header e = Raise error ->
  (error = MissingHeader /\ request_headers e !! "Authorization" = None)
  \/ exists v,
       request_headers e !! "Authorization" = Some v
       /\ ((error = IndexError /\ is_blank v = true)
           \/ exists first rest,
                split v = first :: rest
                /\ ((error = MalformedScheme /\ lower first <> "bearer")
                    \/ (error = MalformedHeader /\ lower first = "bearer"
                        /\ length rest <> 1%nat))).
Proof.
  unfold get_token_auth_header.
  destruct (request_headers e !! "Authorization") as [v|];
    [|intros [= <-]; by left].
  intros H. right. exists v. split; [reflexivity|].
  destruct (split v) as [|first rest] eqn:Hs.
  - injection H as <-. left. split; [reflexivity|].
    by apply split_from_nil in Hs as [_ ?].
  - right. exists first, rest. split; [reflexivity|].
    destruct (String.eqb_spec (lower first) "bearer") as [Hl|Hl];
      cbn [negb] in H.
    + right. destruct rest as [|t [|? ?]]; cbn in H;
        [injection H as <- | discriminate H | injection H as <-];
        repeat split; try assumption; cbn; lia.
    + injection H as <-. left. by split.
Qed.

Lemma get_token_auth_header_Raise_witness :
  exists first rest,
    split "Token abc123 def" = first :: rest
    /\ lower first <> "bearer".
Proof.
  destruct (get_token_auth_header_Raise
              (Demo.request [("Authorization", "Token abc123 def")]
                 (Ok Demo.jwks) 0)
              MalformedScheme eq_refl)
    as [[_ Habsent] | (v & Hv & [[Hindex _] | (first & rest & Hs & Hcase)])].
  - discriminate Habsent.
  - discriminate Hindex.
  - injection Hv as <-. exists first, rest. split; [exact Hs|].
    destruct Hcase as [[_ Hl] | [Hm _]]; [exact Hl | discriminate Hm].
Defined.

(** ** More on the gate *)

Lemma no_view_in_trace (token : string) (cs : list call) (payload : json) :
  cs = []
  \/ cs = [Cget_unverified_header token]
  \/ (exists RSA_key,
        cs = [Cget_unverified_header token;
              Cdecode token RSA_key ["RS256"] None "coffee"
                "https://starbucks-app.eu.auth0.com/"]) ->
  Cview payload ∉ Curlopen jwks_url :: cs.
Proof.
  intros [-> | [-> | [K ->]]] Hin;
    repeat (apply elem_of_cons in Hin as [Hin | Hin]; [discriminate Hin|]);
    by apply elem_of_nil in Hin.
Qed.

Lemma match_keys_not_AuthError (unverified_header : json)
    (keys : list json) (RSA_key0 : json) (err : exn) :
  match_keys unverified_header keys RSA_key0 = Raise err ->
  is_AuthError err = false.
Proof.
  revert RSA_key0. induction keys as [|key rest IH]; intros RSA_key0;
    [discriminate|].
  cbn [match_keys].
  destruct (getitem key "kid") as [kid|] eqn:E1;
    [|intros [= <-]; by eapply getitem_raise_status].
  destruct (getitem unverified_header "kid") as [wanted|] eqn:E2;
    [|intros [= <-]; by eapply getitem_raise_status].
  cbn [mbind result_bind]. destruct (py_eq kid wanted); [|apply IH].
  destruct (rsa_key_of key) eqn:E3;
    [apply IH | intros [= <-]; by eapply rsa_key_of_raise].
Qed.

Lemma auth_failures_answered :
  Forall (fun x =>
            exists error status_code message,
              x = AuthError error status_code
              /\ (status_code = 400 \/ status_code = 401)
              /\ unautherized error status_code
                 = Ok (failure_body status_code (JStr message),
                       status_code))
         auth_failures.
Proof.
  unfold auth_failures.
  repeat (constructor;
          [do 3 eexists; split; [reflexivity|];
           split; [first [by left | by right] | reflexivity]|]).
  constructor.
Qed.

Section GateExtras.
Context {S R Args : Type}.
Variable lib : jose.
Implicit Types (e : env) (w : world S) (token permission : string).
Implicit Types (f : json -> Args -> S -> result R * S).

(** [requires_auth] step by step. *)
Lemma requires_auth_run permission f e (args : Args) w :
  requires_auth lib permission f e args w =
    match get_token_auth_header e with
    | Raise err => (Raise err, w)
    | Ok token =>
        match verify_decode_jwt lib e token w with
        | (Raise err, w1) => (Raise err, w1)
        | (Ok payload, w1) =>
            match check_permissions permission payload with
            | Raise err => (Raise err, w1)
            | Ok _ =>
                let (r, s) := f payload args (app_state w1) in
                (r, {| app_state := s;
                       calls := calls w1 ++ [Cview payload] |})
            end
        end
    end.
Proof.
  unfold requires_auth.
  destruct (get_token_auth_header e) as [token|]; [|reflexivity].
  unfold mbind at 1, M_bind at 1, lift at 1.
  unfold mbind at 1, M_bind at 1.
  destruct (verify_decode_jwt lib e token w) as [[payload|] w1];
    [|reflexivity].
  run. destruct (check_permissions permission payload); reflexivity.
Qed.

(** X17: unless the [Authorization] header has exactly two components
    of which the first is [bearer] in lower case, the wrapper fails and
    leaves the world as it found it: the key set is not fetched, no
    function of python-jose is called and the view function does not
    run. *)
Theorem requires_auth_needs_bearer permission f e (args : Args) w :
  (forall v scheme token,
     request_headers e !! "Authorization" = Some v ->
     split v = [scheme; token] ->
     lower scheme <> "bearer") ->
  exists error,
    requires_auth lib permission f e args w = (Raise error, w)
    /\ error ∈ [MissingHeader; IndexError; MalformedScheme; MalformedHeader].
Proof.
  intros Hbad. rewrite requires_auth_run. unfold get_token_auth_header.
  destruct (request_headers e !! "Authorization") as [v|] eqn:Hv;
    [|exists MissingHeader; split; [reflexivity | set_solver]].
  destruct (split v) as [|first rest] eqn:Hs;
    [exists IndexError; split; [reflexivity | set_solver]|].
  destruct (String.eqb_spec (lower first) "bearer") as [Hl|Hl]; cbn [negb];
    [|exists MalformedScheme; split; [reflexivity | set_solver]].
  destruct rest as [|token [|? ?]];
    try (exists MalformedHeader; split; [reflexivity | set_solver]).
  by destruct (Hbad v first token eq_refl Hs).
Qed.

(** X18: when the extractor, the verifier or the enforcer raises, the
    wrapper raises the same error, and the view function does not run:
    the state of the application is unchanged and no call of the view
    is among the calls of the request. *)
Theorem requires_auth_fail_closed permission f e (args : Args) w
    (error : exn) :
  get_token_auth_header e = Raise error
  \/ (exists token,
        get_token_auth_header e = Ok token
        /\ fst (verify_decode_jwt lib e token w) = Raise error)
  \/ (exists token payload,
        get_token_auth_header e = Ok token
        /\ fst (verify_decode_jwt lib e token w) = Ok payload
        /\ check_permissions permission payload = Raise error) ->
  fst (requires_auth lib permission f e args w) = Raise error
  /\ app_state (snd (requires_auth lib permission f e args w)) = app_state w
  /\ forall payload,
       Cview payload
       ∉ drop (length (calls w))
           (calls (snd (requires_auth lib permission f e args w))).
Proof.
  rewrite requires_auth_run.
  intros [H | [(token & Ht & Hv) | (token & payload & Ht & Hv & Hc)]].
  - rewrite H. cbn. repeat split. intros p.
    rewrite drop_all. apply not_elem_of_nil.
  - rewrite Ht.
    pose proof (verify_decode_jwt_app_state lib e token w) as Happ.
    destruct (verify_decode_jwt_trace lib e token w) as (cs & Hw & Hcs).
    destruct (verify_decode_jwt lib e token w) as [r w1].
    cbn [fst snd] in *. subst r w1. cbn [fst snd].
    split; [reflexivity|]. split; [exact Happ|]. intros p.
    unfold after. cbn [calls]. rewrite drop_app_length.
    by apply (no_view_in_trace token).
  - rewrite Ht.
    pose proof (verify_decode_jwt_app_state lib e token w) as Happ.
    destruct (verify_decode_jwt_trace lib e token w) as (cs & Hw & Hcs).
    destruct (verify_decode_jwt lib e token w) as [r w1].
    cbn [fst snd] in *. subst r w1. rewrite Hc. cbn [fst snd].
    split; [reflexivity|]. split; [exact Happ|]. intros p.
    unfold after. cbn [calls]. rewrite drop_app_length.
    by apply (no_view_in_trace token).
Qed.

(** X19: the view function runs only for an authorized request: when a
    call of the view with a payload is among the calls of the request,
    the header gave a token, the verifier returned that payload for it,
    the payload holds the required permission, and the outcome and the
    new state of the application are those of the view function on that
    payload. *)
Theorem requires_auth_view_ran permission f e (args : Args) w
    (r : result R) (w' : world S) (payload : json) :
  requires_auth lib permission f e args w = (r, w') ->
  Cview payload ∈ drop (length (calls w)) (calls w') ->
  exists token,
    get_token_auth_header e = Ok token
    /\ fst (verify_decode_jwt lib e token w) = Ok payload
    /\ check_permissions permission payload = Ok true
    /\ f payload args (app_state w) = (r, app_state w').
Proof.
  rewrite requires_auth_run.
  destruct (get_token_auth_header e) as [token|].
  2:{ intros [= <- <-]. rewrite drop_all. by intros ?%elem_of_nil. }
  pose proof (verify_decode_jwt_app_state lib e token w) as Happ.
  destruct (verify_decode_jwt_trace lib e token w) as (cs & Hw & Hcs).
  destruct (verify_decode_jwt lib e token w) as [[p|err] w1] eqn:Hv;
    cbn [fst snd] in *; subst w1.
  2:{ intros [= <- <-]. unfold after. cbn [calls].
      rewrite drop_app_length. intros Hin.
      by apply (no_view_in_trace token cs payload) in Hin. }
  destruct (check_permissions permission p) as [b|err] eqn:Hc.
  2:{ intros [= <- <-]. unfold after. cbn [calls].
      rewrite drop_app_length. intros Hin.
      by apply (no_view_in_trace token cs payload) in Hin. }
  destruct (f p args (app_state (after w (Curlopen jwks_url :: cs))))
    as [r0 s0] eqn:Hf.
  intros [= <- <-]. unfold after. cbn [calls].
  rewrite <- List.app_assoc, drop_app_length.
  intros Hin. apply elem_of_app in Hin as [Hin | Hin].
  { by apply (no_view_in_trace token cs payload) in Hin. }
  apply list_elem_of_singleton in Hin. injection Hin as ->.
  exists token. split; [reflexivity|]. split; [by rewrite Hv|]. split.
  - rewrite Hc. f_equal. revert Hc. unfold check_permissions.
    destruct (contains p "permissions") as [[|]|]; cbn -[contains];
      try discriminate.
    destruct (getitem p "permissions") as [ps|]; cbn -[contains];
      [|discriminate].
    destruct (contains ps permission) as [[|]|]; cbn; try discriminate.
    by intros [= <-].
  - rewrite <- Happ. exact Hf.
Qed.

(** X20: a request with a bearer token whose key id matches a key of
    the key set, that [jwt.decode] accepts and whose payload holds the
    required permission, reaches the view function: the outcome is that
    of the view function on the payload, after the three calls of the
    verifier and the call of the view. *)
Theorem requires_auth_passes permission f e (args : Args) w token
    (RSA_key payload : json) :
  get_token_auth_header e = Ok token ->
  selects lib e token RSA_key ->
  decode lib (clock e) token RSA_key ["RS256"] None API_AUDIENCE issuer
    = Ok payload ->
  check_permissions permission payload = Ok true ->
  requires_auth lib permission f e args w
  = (fst (f payload args (app_state w)),
     {| app_state := snd (f payload args (app_state w));
        calls := calls w ++
          [Curlopen jwks_url; Cget_unverified_header token;
           Cdecode token RSA_key ["RS256"] None API_AUDIENCE issuer;
           Cview payload] |}).
Proof.
  intros Ht Hsel Hdec Hc.
  rewrite requires_auth_run, Ht.
  rewrite (verify_decode_jwt_selects lib e token RSA_key w Hsel).
  rewrite decode_with_run. change ALGORITHMS with ["RS256"].
  rewrite Hdec, after_after, Hc. cbn [after app_state calls].
  destruct (f payload args (app_state w)). cbn [fst snd].
  by rewrite <- List.app_assoc.
Qed.

(** X21: when neither the fetch of the key set, nor the reading of the
    header of the token, nor the view function raises an [AuthError], an
    [AuthError] that leaves the wrapper is one of the ten of [auth.py]:
    its status is 400 or 401, and the handler of [api.py] answers it
    with that status, the status as the [error] of the body (the code
    402 of the dict of [MalformedHeader] is not shown) and a text as
    the message. *)
Theorem requires_auth_AuthError_answer permission f e (args : Args) w
    (error : json) (status_code : Z) :
  (forall err, urlopen_json e jwks_url = Raise err ->
               is_AuthError err = false) ->
  (forall token err, get_unverified_header lib token = Raise err ->
                     is_AuthError err = false) ->
  (forall payload s err, fst (f payload args s) = Raise err ->
                         is_AuthError err = false) ->
  fst (requires_auth lib permission f e args w)
    = Raise (AuthError error status_code) ->
  AuthError error status_code ∈ auth_failures
  /\ (status_code = 400 \/ status_code = 401)
  /\ exists message,
       unautherized error status_code
       = Ok (failure_body status_code (JStr message), status_code).
Proof.
  intros Hfetch Hhdr Hview Hraise.
  assert (Hany : forall x,
    fst (requires_auth lib permission f e args w) = Raise x ->
    is_AuthError x = true -> x ∈ auth_failures).
  { clear Hraise. intros x. rewrite requires_auth_run.
    unfold get_token_auth_header.
    destruct (request_headers e !! "Authorization") as [v|];
      [|cbn [fst]; intros [= <-] _; set_solver].
    destruct (split v) as [|first rest];
      [cbn [fst]; intros [= <-]; discriminate|].
    destruct (negb (String.eqb (lower first) "bearer"));
      [cbn [fst]; intros [= <-] _; set_solver|].
    destruct (negb (Nat.eqb (length (first :: rest)) 2));
      [cbn [fst]; intros [= <-] _; set_solver|].
    destruct ((first :: rest) !! 1%nat) as [token|];
      [|cbn [fst]; intros [= <-]; discriminate].
    rewrite verify_decode_jwt_run.
    destruct (urlopen_json e jwks_url) as [jwks|err] eqn:E1.
    2:{ cbn [fst]. intros [= <-] Hx. by rewrite (Hfetch _ eq_refl) in Hx. }
    cbv zeta.
    destruct (get_unverified_header lib token) as [hdr|err] eqn:E2.
    2:{ cbn [fst]. intros [= <-] Hx. by rewrite (Hhdr _ _ E2) in Hx. }
    destruct (contains hdr "kid") as [[|]|err] eqn:E3.
    3:{ cbn [fst]. intros [= <-]. destruct hdr;
          first [discriminate E3 | injection E3 as <-; discriminate]. }
    2:{ cbn [fst]. intros [= <-] _. set_solver. }
    destruct (getitem jwks "keys" ≫= iter) as [keys|err] eqn:E4.
    2:{ cbn [fst]. intros [= <-] Hx. revert E4. unfold mbind, result_bind.
        destruct (getitem jwks "keys") as [ks|] eqn:E5.
        - destruct ks; intros [= <-]; discriminate Hx.
        - intros [= <-].
          apply getitem_raise_status in E5 as [E5 _]. congruence. }
    destruct (match_keys hdr keys (JObj [])) as [K|err] eqn:E5.
    2:{ cbn [fst]. intros [= <-] Hx.
        apply match_keys_not_AuthError in E5. congruence. }
    destruct (truthy K); [|cbn [fst]; intros [= <-] _; set_solver].
    rewrite decode_with_run.
    destruct (decode lib (clock e) token K ALGORITHMS None
                API_AUDIENCE issuer) as [payload|err].
    - unfold check_permissions.
      destruct (contains payload "permissions") as [[|]|] eqn:E6;
        cbn -[contains auth_failures].
      3:{ intros [= <-]. destruct payload;
          first [discriminate E6 | injection E6 as <-; discriminate]. }
      2:{ intros [= <-] _. set_solver. }
      destruct (getitem payload "permissions") as [ps|] eqn:E7;
        cbn -[contains auth_failures].
      2:{ intros [= <-] Hx.
          apply getitem_raise_status in E7 as [E7 _]. congruence. }
      destruct (contains ps permission) as [[|]|] eqn:E8;
        cbn -[auth_failures].
      3:{ intros [= <-]. destruct ps;
          first [discriminate E8 | injection E8 as <-; discriminate]. }
      2:{ intros [= <-] _. set_solver. }
      pose proof (Hview payload (app_state w)) as Hv.
      destruct (f payload args (app_state w)) as [r s]. cbn [fst] in *.
      intros -> Hx. rewrite (Hv _ eq_refl) in Hx. discriminate Hx.
    - destruct err; cbn -[auth_failures]; intros [= <-] Hx;
        first [discriminate Hx | set_solver]. }
  assert (Hin : AuthError error status_code ∈ auth_failures)
    by (by apply Hany).
  split; [exact Hin|].
  pose proof auth_failures_answered as Hall.
  rewrite Forall_forall in Hall.
  destruct (Hall _ Hin) as (error' & st & message & [= -> ->] & Hst & Hans).
  split; [exact Hst | by exists message].
Qed.

End GateExtras.

(** ** The further properties at the requests of [Demo] and [Demo2] *)

(** In the key set of [Demo] a token that names [k2] selects the last
    entry, whatever the stand-in for python-jose. *)
Lemma demo_jwks_selects (lib : jose) (headers : list (string * string))
    (now : Z) (token alg : string) :
  get_unverified_header lib token = Ok (Demo.header_of alg "k2") ->
  selects lib (Demo.request headers (Ok Demo.jwks) now) token Demo.rsa_new.
Proof.
  intros H.
  apply (selects_intro lib _ token Demo.rsa_new
           Demo.jwks (Demo.header_of alg "k2") (JStr "k2")
           [Demo.key_entry "k2" "modulus-old";
            Demo.key_entry "k1" "modulus-one"]
           (Demo.key_entry "k2" "modulus-new") []);
    try reflexivity; try assumption.
  - repeat constructor.
  - constructor.
Defined.

Lemma verify_decode_jwt_missing_kid_witness :
  verify_decode_jwt Demo2.lib
    (Demo.request (Demo.bearer "nokid-token") (Ok Demo.jwks) 0)
    "nokid-token" Demo.w0
  = (Raise MissingKeyId,
     after Demo.w0
       [Curlopen jwks_url; Cget_unverified_header "nokid-token"]).
Proof.
  exact (proj1 (verify_decode_jwt_missing_kid Demo2.lib
                  (Demo.request (Demo.bearer "nokid-token") (Ok Demo.jwks) 0)
                  "nokid-token" Demo.jwks
                  [("alg", JStr "RS256"); ("typ", JStr "JWT")] Demo.w0
                  eq_refl eq_refl eq_refl)).
Defined.

Lemma verify_decode_jwt_header_error_witness :
  verify_decode_jwt Demo.lib
    (Demo.request (Demo.bearer "garbage") (Ok Demo.jwks) 0)
    "garbage" Demo.w0
  = (Raise JWTError,
     after Demo.w0 [Curlopen jwks_url; Cget_unverified_header "garbage"])
  /\ response_status JWTError = 500.
Proof.
  destruct (verify_decode_jwt_header_error Demo.lib
              (Demo.request (Demo.bearer "garbage") (Ok Demo.jwks) 0)
              "garbage" Demo.jwks JWTError Demo.w0
              eq_refl eq_refl eq_refl) as (Hrun & Hstatus & _).
  exact (conj Hrun Hstatus).
Defined.

Lemma verify_decode_jwt_claims_error_witness :
  verify_decode_jwt Demo2.lib
    (Demo.request (Demo.bearer "alien-token") (Ok Demo.jwks) 0)
    "alien-token" Demo.w0
  = (Raise ClaimsInvalid,
     after Demo.w0
       [Curlopen jwks_url; Cget_unverified_header "alien-token";
        Cdecode "alien-token" Demo.rsa_new ["RS256"] None API_AUDIENCE
          issuer]).
Proof.
  exact (proj1 (verify_decode_jwt_claims_error Demo2.lib
                  (Demo.request (Demo.bearer "alien-token") (Ok Demo.jwks) 0)
                  "alien-token" Demo.rsa_new Demo.w0
                  (demo_jwks_selects Demo2.lib _ 0 "alien-token" "RS256"
                     eq_refl)
                  eq_refl)).
Defined.

Lemma verify_decode_jwt_returns_payload_witness :
  verify_decode_jwt Demo.lib
    (Demo.request (Demo.bearer "k2-token") (Ok Demo.jwks) 999)
    "k2-token" Demo.w0
  = (Ok Demo.claims,
     after Demo.w0
       [Curlopen jwks_url; Cget_unverified_header "k2-token";
        Cdecode "k2-token" Demo.rsa_new ["RS256"] None API_AUDIENCE issuer]).
Proof.
  exact (verify_decode_jwt_returns_payload Demo.lib
           (Demo.request (Demo.bearer "k2-token") (Ok Demo.jwks) 999)
           "k2-token" Demo.rsa_new Demo.claims Demo.w0
           (demo_jwks_selects Demo.lib _ 999 "k2-token" "RS256" eq_refl)
           eq_refl).
Defined.

Lemma verify_decode_jwt_sound_witness :
  exists jwks keys unverified_header wanted key RSA_key,
    urlopen_json (Demo.request (Demo.bearer "k2-token") (Ok Demo.jwks) 999)
      jwks_url = Ok jwks
    /\ (getitem jwks "keys" ≫= iter) = Ok keys
    /\ get_unverified_header Demo.lib "k2-token" = Ok unverified_header
    /\ getitem unverified_header "kid" = Ok wanted
    /\ key ∈ keys
    /\ key_matches wanted key = true
    /\ rsa_key_of key = Ok RSA_key
    /\ decode Demo.lib 999 "k2-token" RSA_key ["RS256"] None "coffee"
         "https://starbucks-app.eu.auth0.com/"
       = Ok Demo.claims.
Proof.
  exact (verify_decode_jwt_sound Demo.lib
           (Demo.request (Demo.bearer "k2-token") (Ok Demo.jwks) 999)
           "k2-token" Demo.claims Demo.w0 eq_refl).
Defined.

Lemma verify_decode_jwt_entry_without_kid_witness :
  verify_decode_jwt Demo.lib
    (Demo.request (Demo.bearer "k2-token") (Ok Demo2.jwks_without_kid) 999)
    "k2-token" Demo.w0
  = (Raise (KeyError "kid"),
     after Demo.w0 [Curlopen jwks_url; Cget_unverified_header "k2-token"]).
Proof.
  refine (proj1 (verify_decode_jwt_entry_without_kid Demo.lib
                   (Demo.request (Demo.bearer "k2-token")
                      (Ok Demo2.jwks_without_kid) 999)
                   "k2-token" Demo2.jwks_without_kid
                   (Demo.header_of "RS256" "k2") (JStr "k2")
                   [Demo.key_entry "k2" "modulus-new"]
                   (JObj [("kty", JStr "RSA"); ("n", JStr "modulus")])
                   [Demo.key_entry "k1" "modulus-one"]
                   (KeyError "kid") Demo.w0
                   eq_refl eq_refl eq_refl eq_refl _ eq_refl)).
  repeat constructor.
Defined.

(** The entry lacks [use] and [e]: the error is that of [use], which is
    read first. *)
Lemma verify_decode_jwt_partial_entry_witness :
  verify_decode_jwt Demo.lib
    (Demo.request (Demo.bearer "k2-token") (Ok Demo2.jwks_partial) 999)
    "k2-token" Demo.w0
  = (Raise (KeyError "use"),
     after Demo.w0 [Curlopen jwks_url; Cget_unverified_header "k2-token"])
  /\ getitem Demo2.partial_key "e" = Raise (KeyError "e").
Proof.
  split; [|reflexivity].
  refine (proj1 (verify_decode_jwt_partial_entry Demo.lib
                   (Demo.request (Demo.bearer "k2-token")
                      (Ok Demo2.jwks_partial) 999)
                   "k2-token" Demo2.jwks_partial
                   (Demo.header_of "RS256" "k2") (JStr "k2")
                   [Demo.key_entry "k1" "modulus-one"]
                   Demo2.partial_key []
                   (KeyError "use") Demo.w0
                   eq_refl eq_refl eq_refl eq_refl _ eq_refl eq_refl)).
  repeat constructor.
Defined.

(** Another scheme than [Bearer]. *)
Lemma requires_auth_needs_bearer_witness :
  exists error,
    requires_auth Demo.lib "post:drinks" Demo.view
      (Demo.request [("Authorization", "Basic dXNlcjpwYXNz")]
         (Ok Demo.jwks) 0)
      tt Demo.w0
    = (Raise error, Demo.w0)
    /\ error ∈ [MissingHeader; IndexError; MalformedScheme; MalformedHeader].
Proof.
  apply (requires_auth_needs_bearer Demo.lib "post:drinks" Demo.view
           (Demo.request [("Authorization", "Basic dXNlcjpwYXNz")]
              (Ok Demo.jwks) 0)
           tt Demo.w0).
  intros v scheme token Hv Hs. injection Hv as <-.
  injection Hs as <- _. discriminate.
Defined.

(** The token is valid and lacks the permission [post:drinks]. *)
Lemma requires_auth_fail_closed_witness :
  fst (requires_auth Demo.lib "post:drinks" Demo.view
         (Demo.request (Demo.bearer "k2-token") (Ok Demo.jwks) 999)
         tt Demo.w0)
  = Raise PermissionDenied
  /\ app_state
       (snd (requires_auth Demo.lib "post:drinks" Demo.view
               (Demo.request (Demo.bearer "k2-token") (Ok Demo.jwks) 999)
               tt Demo.w0))
     = 0%nat.
Proof.
  destruct (requires_auth_fail_closed Demo.lib "post:drinks" Demo.view
              (Demo.request (Demo.bearer "k2-token") (Ok Demo.jwks) 999)
              tt Demo.w0 PermissionDenied
              (or_intror (or_intror
                 (ex_intro _ "k2-token"
                    (ex_intro _ Demo.claims
                       (conj eq_refl (conj eq_refl eq_refl)))))))
    as (Hraise & Happ & _).
  exact (conj Hraise Happ).
Defined.

Lemma requires_auth_view_ran_witness :
  exists token,
    get_token_auth_header
      (Demo.request (Demo.bearer "k2-token") (Ok Demo.jwks) 999)
    = Ok token
    /\ check_permissions "get:drinks-detail" Demo.claims = Ok true.
Proof.
  destruct (requires_auth_view_ran Demo.lib "get:drinks-detail" Demo.view
              (Demo.request (Demo.bearer "k2-token") (Ok Demo.jwks) 999)
              tt Demo.w0
              (Ok (JObj [("success", JBool true)]))
              {| app_state := 1%nat;
                 calls := [Curlopen jwks_url;
                           Cget_unverified_header "k2-token";
                           Cdecode "k2-token" Demo.rsa_new ["RS256"] None
                             "coffee" issuer;
                           Cview Demo.claims] |}
              Demo.claims eq_refl)
    as (token & Ht & _ & Hc & _).
  - cbn. rewrite !elem_of_cons. do 3 right. left. reflexivity.
  - exists token. exact (conj Ht Hc).
Defined.

Lemma requires_auth_passes_witness :
  requires_auth Demo.lib "get:drinks-detail" Demo.view
    (Demo.request (Demo.bearer "k2-token") (Ok Demo.jwks) 999) tt Demo.w0
  = (Ok (JObj [("success", JBool true)]),
     {| app_state := 1%nat;
        calls := [Curlopen jwks_url; Cget_unverified_header "k2-token";
                  Cdecode "k2-token" Demo.rsa_new ["RS256"] None
                    API_AUDIENCE issuer;
                  Cview Demo.claims] |}).
Proof.
  exact (requires_auth_passes Demo.lib "get:drinks-detail" Demo.view
           (Demo.request (Demo.bearer "k2-token") (Ok Demo.jwks) 999)
           tt Demo.w0 "k2-token" Demo.rsa_new Demo.claims
           eq_refl
           (demo_jwks_selects Demo.lib _ 999 "k2-token" "RS256" eq_refl)
           eq_refl eq_refl).
Defined.

(** [Demo.lib] raises nothing but [JWTError] when it reads a header. *)
Lemma demo_header_not_AuthError (token : string) (err : exn) :
  get_unverified_header Demo.lib token = Raise err ->
  is_AuthError err = false.
Proof.
  cbn. destruct (String.eqb token "garbage"); [by intros [= <-]|].
  destruct (String.eqb token "k9-token"); discriminate.
Defined.

Lemma requires_auth_AuthError_answer_witness :
  PermissionDenied ∈ auth_failures
  /\ exists message,
       unautherized (error_dict 401 "Unautherized to use the service.") 401
       = Ok (failure_body 401 (JStr message), 401).
Proof.
  destruct (requires_auth_AuthError_answer Demo.lib "post:drinks" Demo.view
              (Demo.request (Demo.bearer "k2-token") (Ok Demo.jwks) 999)
              tt Demo.w0
              (error_dict 401 "Unautherized to use the service.") 401)
    as (Hin & _ & Hanswer).
  - discriminate.
  - exact demo_header_not_AuthError.
  - discriminate.
  - reflexivity.
  - exact (conj Hin Hanswer).
Defined.

(** The identity provider answers with a document that describes an
    error. *)
Lemma verify_decode_jwt_no_keys_witness :
  verify_decode_jwt Demo.lib
    (Demo.request (Demo.bearer "k2-token")
       (Ok (JObj [("error", JStr "too many requests")])) 999)
    "k2-token" Demo.w0
  = (Raise (KeyError "keys"),
     after Demo.w0 [Curlopen jwks_url; Cget_unverified_header "k2-token"]).
Proof.
  exact (proj1 (verify_decode_jwt_no_keys Demo.lib
                  (Demo.request (Demo.bearer "k2-token")
                     (Ok (JObj [("error", JStr "too many requests")])) 999)
                  "k2-token" (JObj [("error", JStr "too many requests")])
                  (Demo.header_of "RS256" "k2") (JStr "k2")
                  (KeyError "keys") Demo.w0
                  eq_refl eq_refl eq_refl eq_refl)).
Defined.
